(** * Story2Music: the pre-training pipeline (utils.py, pretrain.py)

    A shallow embedding of the data-preparation helpers of [utils.py] and of
    the control flow of [pretrain.main], with the properties of the
    specification proved (or refuted) about it.

    Python values are modelled as the code has them: the length of a list is
    an integer [Z]; [0.8] and [0.1] are IEEE binary64 constants and
    [total_num_files * 0.8] is a binary64 product (the [SpecFloat] model of
    IEEE arithmetic, precision 53, emax 1024); an exception is a value of
    [exn] carried by [result]; the filesystem, the log, the standard output
    and the calls into external libraries are explicit state of a [world]. *)

From Stdlib Require Import ZArith Lia Bool.
From Corelib Require Import SpecFloat.
From stdpp Require Import base option list strings gmap pretty.

Open Scope Z_scope.

(** ** Exceptions and fallible computations *)

Inductive pykey : Type :=
  | KInt (i : Z)
  | KStr (s : string).

Inductive exn : Type :=
  | KeyError (key : pykey)
  | NameError (name : string)
  | AttributeError (attr : string)
  | OverflowError
  | ValueError
  | TypeError
  | ZeroDivisionError
  | OSError (path : string)
  | ExternalError (origin : string).

Inductive result (A : Type) : Type :=
  | Ok (a : A)
  | Raise (e : exn).
Arguments Ok {A} a.
Arguments Raise {A} e.

#[global] Instance result_ret : MRet result := fun A a => Ok a.
#[global] Instance result_bind : MBind result := fun A B k r =>
  match r with
  | Ok a => k a
  | Raise e => Raise e
  end.

(** ** Python numbers: [int * float], [int(float)], [+=] and [/] *)

Module PyFloat.

Definition prec : Z := 53.
Definition emax : Z := 1024.

(** The binary64 numbers nearest to the literals [0.8] and [0.1]:
    0x1.999999999999ap-1 and 0x1.999999999999ap-4. *)
Definition mant_08 : positive := 7205759403792794%positive.
Definition f0_8 : spec_float := S754_finite false mant_08 (-53).
Definition f0_1 : spec_float := S754_finite false mant_08 (-56).

(** The double nearest to the integer [n] (an infinity when out of range). *)
Definition round_int (n : Z) : spec_float := binary_normalize prec emax n 0 false.

(** [float(n)] for a Python int: correctly rounded, [OverflowError] past
    the largest finite double. *)
Definition of_int (n : Z) : result spec_float :=
  match round_int n with
  | S754_infinity _ => Raise OverflowError
  | f => Ok f
  end.

Definition mul (x y : spec_float) : spec_float := SFmul prec emax x y.
Definition add (x y : spec_float) : spec_float := SFadd prec emax x y.
Definition div (x y : spec_float) : spec_float := SFdiv prec emax x y.

(** [n * y] with [n] an int and [y] a float: the int is converted first. *)
Definition int_mul (n : Z) (y : spec_float) : result spec_float :=
  x ← of_int n; Ok (mul x y).

(** [int(x)]: truncation towards zero; infinities and NaN raise. *)
Definition to_int (x : spec_float) : result Z :=
  match x with
  | S754_zero _ => Ok 0
  | S754_infinity _ => Raise OverflowError
  | S754_nan => Raise ValueError
  | S754_finite s m e =>
      let a := if 0 <=? e then Z.pos m * 2 ^ e else Z.pos m / 2 ^ (- e) in
      Ok (if s then - a else a)
  end.

(** The sum of [xs] accumulated from the left, starting from zero. *)
Definition fsum (xs : list spec_float) : spec_float := foldl add (S754_zero false) xs.

(** A variable such as [total_loss], which starts as the int [0] and becomes
    a float at the first [+= loss.item()]. *)
Inductive pynum : Type :=
  | PInt (n : Z)
  | PFloat (x : spec_float).

(** [t + x] with [x] a float. *)
Definition add_float (t : pynum) (x : spec_float) : result pynum :=
  match t with
  | PInt n => f ← of_int n; Ok (PFloat (add f x))
  | PFloat y => Ok (PFloat (add y x))
  end.

(** [t / n] with [n] an int: true division, [ZeroDivisionError] on [n = 0]
    whether [t] is an int or a float. *)
Definition div_int (t : pynum) (n : Z) : result spec_float :=
  if n =? 0 then Raise ZeroDivisionError
  else match t with
       | PInt a => fa ← of_int a; fn ← of_int n; Ok (div fa fn)
       | PFloat y => fn ← of_int n; Ok (div y fn)
       end.

End PyFloat.

(** ** Python sequences: slices with optional, possibly negative bounds *)

Module PyList.

Definition len {A : Type} (l : list A) : Z := Z.of_nat (length l).

(** A slice bound is counted from the end when negative and clamped to
    [0 .. len] (step 1). *)
Definition adjust_index (n i : Z) : Z :=
  if i <? 0 then Z.max (i + n) 0 else Z.min i n.

(** [l[lo:hi]]; [None] stands for an omitted bound. *)
Definition slice {A : Type} (l : list A) (lo hi : option Z) : list A :=
  let start := match lo with None => 0 | Some i => adjust_index (len l) i end in
  let stop := match hi with None => len l | Some i => adjust_index (len l) i end in
  take (Z.to_nat (stop - start)) (drop (Z.to_nat start) l).

(** [range(a, b)]. *)
Definition range (a b : Z) : list Z := seqZ a (b - a).

End PyList.

(** ** The world: filesystem, external calls, output *)

Definition tensor : Type := list spec_float.

(** What [state_dict()] returns, for a model or for an optimizer. *)
Definition state_dict : Type := gmap string tensor.

(** The values stored in a checkpoint dictionary. *)
Inductive pyval : Type :=
  | VInt (n : Z)
  | VFloat (x : spec_float)
  | VState (sd : state_dict).

(** What a path of the disk holds: a directory, a zip archive with its
    entries, an object saved by [torch.save], a text file, a MIDI file or
    any other content. *)
Inductive file : Type :=
  | Dir
  | Archive (entries : list string)
  | Pickle (obj : gmap string pyval)
  | Text (lines : list string)
  | Midi (data : string)
  | Blob.

(** A printed or logged line. The two lines that format a float with
    [:.4f] keep the number and the float apart: "step {step} - Loss: {avg}"
    and "Epoch {number} - Loss: {avg}". *)
Inductive message : Type :=
  | Msg (text : string)
  | StepLoss (step : Z) (avg : spec_float)
  | EpochLoss (number : Z) (avg : spec_float).

(** The calls that reach outside the program, in the order they are made. *)
Inductive event : Type :=
  | Download (url output : string)
  | ExtractAll (archive target : string)
  | Remove (path : string)
  | SplitFiles (files_paths : list string) (save_dir : string)
      (max_seq_len num_overlap_bars : Z)
  | Forward (decoder_input : list (list Z))
      (tgt_key_padding_mask : list (list bool))
  | Save (path : string).

Record world : Type := World {
  fs : gmap string file;
  trace : list event;
  stdout : list message;
  logfile : list message;
}.

Definition is_download (ev : event) : bool :=
  match ev with Download _ _ => true | _ => false end.

Definition is_extract (ev : event) : bool :=
  match ev with ExtractAll _ _ => true | _ => false end.

Definition is_split_files (ev : event) : bool :=
  match ev with SplitFiles _ _ _ _ => true | _ => false end.

Definition is_save (ev : event) : bool :=
  match ev with Save _ => true | _ => false end.

(** Computations that read and change the world and may raise; the world
    reached when an exception is raised is kept. *)
Definition M (A : Type) : Type := world -> result A * world.

#[global] Instance M_ret : MRet M := fun A a w => (Ok a, w).
#[global] Instance M_bind : MBind M := fun A B k m w =>
  match m w with
  | (Ok a, w') => k a w'
  | (Raise e, w') => (Raise e, w')
  end.

Definition lift {A : Type} (r : result A) : M A := fun w => (r, w).

Definition emit (ev : event) : M unit := fun w =>
  (Ok tt, World (fs w) (trace w ++ [ev]) (stdout w) (logfile w)).

Definition print (m : message) : M unit := fun w =>
  (Ok tt, World (fs w) (trace w) (stdout w ++ [m]) (logfile w)).

Definition logging_info (m : message) : M unit := fun w =>
  (Ok tt, World (fs w) (trace w) (stdout w) (logfile w ++ [m])).

Definition path_exists (p : string) : M bool := fun w =>
  (Ok (bool_decide (is_Some (fs w !! p))), w).

Definition write_file (p : string) (f : file) : M unit := fun w =>
  (Ok tt, World (<[p := f]> (fs w)) (trace w) (stdout w) (logfile w)).

(** [os.makedirs(p, exist_ok=True)]. *)
Definition makedirs_exist_ok (p : string) : M unit := fun w =>
  match fs w !! p with
  | None => write_file p Dir w
  | Some Dir => (Ok tt, w)
  | Some _ => (Raise (OSError p), w)
  end.

(** A path at which a directory can be made: free, or a directory already. *)
Definition dir_or_free (w : world) (p : string) : Prop :=
  fs w !! p = None \/ fs w !! p = Some Dir.

(** [os.remove(p)]. *)
Definition os_remove (p : string) : M unit := fun w =>
  match fs w !! p with
  | None => (Raise (OSError p), w)
  | Some _ =>
      (Ok tt, World (delete p (fs w)) (trace w ++ [Remove p]) (stdout w) (logfile w))
  end.

Fixpoint foldM {A B : Type} (f : B -> A -> M A) (l : list B) (a : A) : M A :=
  match l with
  | [] => mret a
  | b :: l' => a' ← f b a; foldM f l' a'
  end.

(** ** External collaborators *)

Record tokenizer : Type := Tokenizer {
  vocab : list (string * Z);
  decode : list (list string) -> result string;
}.

Record batch : Type := Batch {
  input_ids : list (list Z);
  attention_mask : list (list Z);
}.

(** What the libraries and the machine answer: the archive behind a URL
    ([None] when the download fails), the files a recursive glob finds, the
    tokenizer [REMI()], the number of visible accelerators, the freshly built
    parameters and optimizer state, the batches the data loader yields in
    each epoch, and one optimisation step (forward pass, loss, backward pass
    and [optimizer.step()]), which returns the new parameters, the new
    optimizer state and [loss.item()]. *)
Record env : Type := Env {
  remote : string -> option (list string);
  glob_mid : string -> list string;
  midi_tokenizer : tokenizer;
  cuda_device_count : Z;
  initial_params : state_dict;
  initial_opt : state_dict;
  data_loader : list batch;
  train_step : state_dict -> state_dict -> list (list Z) -> list (list bool) ->
               list (list Z) -> state_dict * state_dict * spec_float;
}.

(** ** Tensors of floats, as far as utils.py builds them *)

Module Torch.

Definition one : spec_float := S754_finite false 4503599627370496 (-52).

(** [float('-inf')]. *)
Definition neg_inf : spec_float := S754_infinity true.

(** [torch.ones(rows, cols)]: a negative dimension is refused. *)
Definition ones (rows cols : Z) : result (list (list spec_float)) :=
  if (rows <? 0) || (cols <? 0) then Raise (ExternalError "torch.ones")
  else Ok (replicate (Z.to_nat rows) (replicate (Z.to_nat cols) one)).

(** [t * c] with [c] a Python float. *)
Definition scale (t : list (list spec_float)) (c : spec_float) : list (list spec_float) :=
  (fun row : list spec_float => (fun x => PyFloat.mul x c) <$> row) <$> t.

(** [torch.triu(t, diagonal)]: the elements on and above the given diagonal
    are kept, the others are set to zero. *)
Definition triu (t : list (list spec_float)) (diagonal : Z) : list (list spec_float) :=
  imap (fun i row =>
          imap (fun j x => if diagonal <=? Z.of_nat j - Z.of_nat i
                           then x else S754_zero false) row) t.

End Torch.

(** ** utils.py *)

Module Utils.

(** *** generate_causal_mask *)

Definition generate_causal_mask (size : Z) : result (list (list spec_float)) :=
  t ← Torch.ones size size; Ok (Torch.triu (Torch.scale t Torch.neg_inf) 1).

(** *** convert_to_midi *)

(** [{v: k for k, v in tokenizer.vocab.items()}]: later items win. *)
Definition id_to_token (items : list (string * Z)) : gmap Z string :=
  foldl (fun d kv => <[kv.2 := kv.1]> d) ∅ items.

Definition getitem (d : gmap Z string) (i : Z) : result string :=
  match d !! i with
  | Some t => Ok t
  | None => Raise (KeyError (KInt i))
  end.

(** [[f(i) for i in l]], raising at the first element on which [f] does. *)
Fixpoint comprehension {A B : Type} (f : A -> result B) (l : list A) : result (list B) :=
  match l with
  | [] => Ok []
  | a :: l' => b ← f a; bs ← comprehension f l'; Ok (b :: bs)
  end.

Definition convert_to_midi (token_ids : list Z) (tk : tokenizer) (dump_path : string)
  : M unit :=
  let d := id_to_token (vocab tk) in
  tokens ← lift (comprehension (getitem d) token_ids);
  let actual_tokens := [tokens] in
  write_file "generated_tokens.txt" (Text tokens);;
  generated_midi ← lift (decode tk actual_tokens);
  write_file dump_path (Midi generated_midi).

(** *** get_eval_metrics *)

(** The names bound at module level in utils.py: its imports and its
    functions. *)
Definition module_globals : list string :=
  ["REMI"; "TokenizerConfig"; "split_files_for_training"; "Path"; "os";
   "muspy"; "shuffle"; "torch"; "gdown"; "zipfile"; "convert_to_midi";
   "get_eval_metrics"; "generate_causal_mask"; "load_pretrain_data";
   "split_pretrain_data"].

(** The functions and types of the [builtins] module; its other names are
    exception classes and constants, all capitalised or dunder names. *)
Definition builtins : list string :=
  ["abs"; "aiter"; "all"; "anext"; "any"; "ascii"; "bin"; "bool";
   "breakpoint"; "bytearray"; "bytes"; "callable"; "chr"; "classmethod";
   "compile"; "complex"; "copyright"; "credits"; "delattr"; "dict"; "dir";
   "divmod"; "enumerate"; "eval"; "exec"; "exit"; "filter"; "float";
   "format"; "frozenset"; "getattr"; "globals"; "hasattr"; "hash"; "help";
   "hex"; "id"; "input"; "int"; "isinstance"; "issubclass"; "iter"; "len";
   "license"; "list"; "locals"; "map"; "max"; "memoryview"; "min"; "next";
   "object"; "oct"; "open"; "ord"; "pow"; "print"; "property"; "quit";
   "range"; "repr"; "reversed"; "round"; "set"; "setattr"; "slice";
   "sorted"; "staticmethod"; "str"; "sum"; "super"; "tuple"; "type"; "vars";
   "zip"].

(** Loading a name that is not local to the function. *)
Definition load_global (name : string) : result unit :=
  if bool_decide (name ∈ module_globals) || bool_decide (name ∈ builtins)
  then Ok tt else Raise (NameError name).

(** The functions of the music-analysis library that the function calls,
    each of which may raise. *)
Record muspy_api (music : Type) : Type := Muspy {
  read_midi : string -> result music;
  pitch_range : music -> result pyval;
  n_pitches_used : music -> result pyval;
  n_pitch_classes_used : music -> result pyval;
  polyphony : music -> result pyval;
  polyphony_rate : music -> result pyval;
  empty_beat_rate : music -> result pyval;
}.
Arguments read_midi {music} _ _.
Arguments pitch_range {music} _ _.
Arguments n_pitches_used {music} _ _.
Arguments n_pitch_classes_used {music} _ _.
Arguments polyphony {music} _ _.
Arguments polyphony_rate {music} _ _.
Arguments empty_beat_rate {music} _ _.

Definition get_eval_metrics {music : Type} (muspy : muspy_api music) (midi_path : string)
  : result (list pyval) :=
  load_global "muspy";;
  music ← read_midi muspy midi_path;
  load_global "muspy";;
  pitch_range ← pitch_range muspy music;
  load_global "muspy";;
  n_pitch ← n_pitches_used muspy music;
  load_global "muspy";;
  n_pitch_class ← n_pitch_classes_used muspy music;
  load_global "py";;
  polyphony ← polyphony muspy music;
  load_global "muspy";;
  polyphony_rate ← polyphony_rate muspy music;
  load_global "muspy";;
  empty_beat_rate ← empty_beat_rate muspy music;
  Ok [pitch_range; n_pitch; n_pitch_class; polyphony; polyphony_rate; empty_beat_rate].

(** *** load_pretrain_data *)

Definition gdown_download (e : env) (url output : string) : M unit :=
  emit (Download url output);;
  match remote e url with
  | Some entries => write_file output (Archive entries)
  | None => lift (Raise (ExternalError "gdown.download"))
  end.

(** The disk after the entries of an archive were written under [target]. *)
Definition extracted (target : string) (entries : list string) (d : gmap string file)
  : gmap string file :=
  foldr (fun entry d => <[target +:+ "/" +:+ entry := Blob]> d) (<[target := Dir]> d) entries.

(** [with zipfile.ZipFile(archive, 'r') as zip_f: zip_f.extractall(target)]. *)
Definition zip_extractall (archive target : string) : M unit := fun w =>
  match fs w !! archive with
  | Some (Archive entries) =>
      (Ok tt,
       World (extracted target entries (fs w))
             (trace w ++ [ExtractAll archive target]) (stdout w) (logfile w))
  | _ => (Raise (ExternalError "zipfile.ZipFile"), w)
  end.

Definition load_pretrain_data (e : env) (download_url output_zip extracted_file_name : string)
  : M string :=
  print (Msg "downloading pretrain data: ");;
  gdown_download e download_url output_zip;;
  print (Msg "unzipping pretrain data: ");;
  zip_extractall output_zip extracted_file_name;;
  print (Msg "pretrain data unzipped.");;
  os_remove output_zip;;
  print (Msg "removed zip file");;
  mret extracted_file_name.

(** *** split_pretrain_data *)

(** Lines 78 to 85: the three slices of the enumerated paths. *)
Definition split_paths (midi_paths : list string)
  : result (list string * list string * list string) :=
  let total_num_files := PyList.len midi_paths in
  num_files_train ← (x ← PyFloat.int_mul total_num_files PyFloat.f0_8; PyFloat.to_int x);
  num_files_valid ← (x ← PyFloat.int_mul total_num_files PyFloat.f0_1; PyFloat.to_int x);
  let midi_paths_train := PyList.slice midi_paths None (Some num_files_train) in
  let midi_paths_valid :=
    PyList.slice midi_paths (Some num_files_train)
      (Some (num_files_train + num_files_valid)) in
  let midi_paths_test :=
    PyList.slice midi_paths (Some (num_files_train + num_files_valid)) None in
  Ok (midi_paths_train, midi_paths_valid, midi_paths_test).

Definition split_files_for_training (files_paths : list string) (save_dir : string)
    (max_seq_len num_overlap_bars : Z) : M unit :=
  emit (SplitFiles files_paths save_dir max_seq_len num_overlap_bars);;
  makedirs_exist_ok save_dir.

Definition split_pretrain_data (e : env) (midi_path : string) (max_len : Z) : M unit :=
  let midi_paths := glob_mid e midi_path in
  '(midi_paths_train, midi_paths_valid, midi_paths_test) ← lift (split_paths midi_paths);
  foldM (fun '(files_path, subset_name) (_ : unit) =>
           let subset_chunks_dir := "pretrain_data/dataset_" +:+ subset_name in
           split_files_for_training files_path subset_chunks_dir max_len 2)
        [(midi_paths_train, "train"); (midi_paths_valid, "validation");
         (midi_paths_test, "test")] tt.

(** What the chunking calls may change: they append [SplitFiles] events and
    touch the three dataset directories only. *)
Definition split_frame (w w' : world) : Prop :=
  (exists rest, trace w' = trace w ++ rest /\ Forall (fun ev => is_split_files ev = true) rest)
  /\ forall q, q ∉ ["pretrain_data/dataset_train"; "pretrain_data/dataset_validation";
                    "pretrain_data/dataset_test"] -> fs w' !! q = fs w !! q.

End Utils.

(** ** pretrain.py *)

Module Pretrain.

(** *** The model object *)

(** [MidiDecoderOnlyModel(...)], possibly wrapped by [nn.DataParallel]. The
    class is defined in midi_decoder.py, which is an [nn.Module] subclass;
    it is taken to define no attribute called [module], so that only the
    wrapper has one. *)
Inductive model : Type :=
  | MidiDecoderOnlyModel (params : state_dict)
  | DataParallel (module : model).

(** [model.module]. *)
Definition get_module (m : model) : result model :=
  match m with
  | DataParallel inner => Ok inner
  | MidiDecoderOnlyModel _ => Raise (AttributeError "module")
  end.

Fixpoint parameters (m : model) : state_dict :=
  match m with
  | MidiDecoderOnlyModel p => p
  | DataParallel inner => parameters inner
  end.

(** The parameters are shared between the wrapper, the wrapped module and
    the optimizer: an update through any of them is seen through all. *)
Fixpoint set_parameters (m : model) (p : state_dict) : model :=
  match m with
  | MidiDecoderOnlyModel _ => MidiDecoderOnlyModel p
  | DataParallel inner => DataParallel (set_parameters inner p)
  end.

(** Lines 53 to 59. *)
Definition build_model (e : env) : model :=
  let model := MidiDecoderOnlyModel (initial_params e) in
  if 1 <? cuda_device_count e then DataParallel model else model.

(** *** Checkpoint files *)

Definition torch_load (p : string) : M (gmap string pyval) := fun w =>
  match fs w !! p with
  | Some (Pickle obj) => (Ok obj, w)
  | _ => (Raise (ExternalError "torch.load"), w)
  end.

Definition torch_save (obj : gmap string pyval) (p : string) : M unit :=
  emit (Save p);; write_file p (Pickle obj).

(** [checkpoint[key]]. *)
Definition dict_get (d : gmap string pyval) (key : string) : result pyval :=
  match d !! key with
  | Some v => Ok v
  | None => Raise (KeyError (KStr key))
  end.

Definition as_state (v : pyval) : result state_dict :=
  match v with
  | VState sd => Ok sd
  | _ => Raise TypeError
  end.

Definition as_int (v : pyval) : result Z :=
  match v with
  | VInt n => Ok n
  | _ => Raise TypeError
  end.

(** *** Resume (lines 64 to 74) *)

Definition checkpoint_path : string := "pretrain_checkpoints/decoder_epoch_4.pt".

Definition resume (m : model) (optimizer : state_dict) : M (model * state_dict * Z) :=
  let start_epoch := 0 in
  found ← path_exists checkpoint_path;
  if (found : bool) then
    checkpoint ← torch_load checkpoint_path;
    inner ← lift (get_module m);
    sd ← lift (v ← dict_get checkpoint "model_state_dict"; as_state v);
    let m := set_parameters m sd in
    optimizer ← lift (v ← dict_get checkpoint "optimizer_state_dict"; as_state v);
    epoch ← lift (v ← dict_get checkpoint "epoch"; as_int v);
    let start_epoch := epoch + 1 in
    print (Msg ("Loaded checkpoint from epoch " +:+ pretty epoch));;
    logging_info (Msg ("Resumed training from checkpoint: epoch " +:+ pretty epoch));;
    mret (m, optimizer, start_epoch)
  else mret (m, optimizer, start_epoch).

(** *** The training loop (lines 77 to 127) *)

Definition num_epochs : Z := 20.
Definition save_every : Z := 2.
Definition log_interval : Z := 500.

(** The variables that live across batches and epochs: the model, the
    optimizer, [step] and [loss] (unbound until the first batch). *)
Record train_state : Type := TrainState {
  st_model : model;
  st_optimizer : state_dict;
  st_step : Z;
  st_loss : option spec_float;
}.

Definition decoder_input_of (b : batch) : list (list Z) :=
  (fun row => PyList.slice row None (Some (-1))) <$> input_ids b.

Definition target_of (b : batch) : list (list Z) :=
  (fun row => PyList.slice row (Some 1) None) <$> input_ids b.

Definition attn_mask_of (b : batch) : list (list Z) :=
  (fun row => PyList.slice row None (Some (-1))) <$> attention_mask b.

(** [attn_mask == 0], elementwise. *)
Definition tgt_key_padding_mask_of (b : batch) : list (list bool) :=
  (fun row : list Z => (fun x => x =? 0) <$> row) <$> attn_mask_of b.

(** One iteration of the batch loop (lines 86 to 112). *)
Definition train_batch (e : env) (b : batch) (acc : train_state * PyFloat.pynum)
  : M (train_state * PyFloat.pynum) :=
  let '(st, total_loss) := acc in
  let step := st_step st + 1 in
  let decoder_input := decoder_input_of b in
  let target := target_of b in
  let tgt_key_padding_mask := tgt_key_padding_mask_of b in
  emit (Forward decoder_input tgt_key_padding_mask);;
  let '(params, optimizer, loss) :=
    train_step e (parameters (st_model st)) (st_optimizer st)
      decoder_input tgt_key_padding_mask target in
  total_loss ← lift (PyFloat.add_float total_loss loss);
  (if step `mod` log_interval =? 0 then
     avg_train_loss ← lift (PyFloat.div_int total_loss step);
     logging_info (StepLoss step avg_train_loss)
   else mret tt);;
  mret (TrainState (set_parameters (st_model st) params) optimizer step (Some loss),
        total_loss).

(** Lines 84 and 85: [total_loss = 0], then the batches of the loader. *)
Definition train_batches (e : env) (st : train_state) : M (train_state * PyFloat.pynum) :=
  foldM (train_batch e) (data_loader e) (st, PyFloat.PInt 0).

(** **** What one pass over the loader computes

    The losses of the successive optimisation steps, the parameters and the
    optimizer state they lead to, the value of [total_loss] after the losses
    [ls], the events of the forward passes, and the lines logged by a pass
    that starts with [step = s0] and yields the losses [ls]. *)

Definition step_of (e : env) (b : batch) (po : state_dict * state_dict)
  : state_dict * state_dict * spec_float :=
  train_step e po.1 po.2 (decoder_input_of b) (tgt_key_padding_mask_of b) (target_of b).

Fixpoint losses (e : env) (bs : list batch) (po : state_dict * state_dict)
  : list spec_float :=
  match bs with
  | [] => []
  | b :: bs' => (step_of e b po).2 :: losses e bs' (step_of e b po).1
  end.

Fixpoint after_batches (e : env) (bs : list batch) (po : state_dict * state_dict)
  : state_dict * state_dict :=
  match bs with
  | [] => po
  | b :: bs' => after_batches e bs' (step_of e b po).1
  end.

Definition total_after (ls : list spec_float) : PyFloat.pynum :=
  match ls with
  | [] => PyFloat.PInt 0
  | _ :: _ => PyFloat.PFloat (PyFloat.fsum ls)
  end.

Definition forward_events (bs : list batch) : list event :=
  (fun b => Forward (decoder_input_of b) (tgt_key_padding_mask_of b)) <$> bs.

Definition step_log_line (s0 : Z) (prev ls : list spec_float) (j : nat) : option message :=
  let step := s0 + Z.of_nat j in
  if step `mod` log_interval =? 0
  then Some (StepLoss step (PyFloat.div (PyFloat.fsum (prev ++ take j ls))
                                       (PyFloat.round_int step)))
  else None.

Definition step_logs (s0 : Z) (prev ls : list spec_float) : list message :=
  omap (step_log_line s0 prev ls) (seq 1 (length ls)).

Definition last_loss (old : option spec_float) (ls : list spec_float) : option spec_float :=
  match last ls with
  | Some l => Some l
  | None => old
  end.

Definition epoch_checkpoint_path (epoch : Z) : string :=
  "pretrain_checkpoints/decoder_epoch_" +:+ pretty epoch +:+ ".pt".

(** The dictionary of lines 121 to 126. *)
Definition checkpoint_record (epoch : Z) (model_state optimizer_state : state_dict)
    (loss : spec_float) : gmap string pyval :=
  <["loss" := VFloat loss]>
    (<["optimizer_state_dict" := VState optimizer_state]>
      (<["model_state_dict" := VState model_state]>
        (<["epoch" := VInt epoch]> ∅))).

(** Lines 120 to 127. The values of the dictionary are evaluated in the
    order written: [model.module] first, [loss] last. *)
Definition save_checkpoint (st : train_state) (epoch : Z) : M unit :=
  let checkpoint_path := epoch_checkpoint_path epoch in
  inner ← lift (get_module (st_model st));
  loss ← lift (match st_loss st with
               | Some l => Ok l
               | None => Raise (NameError "loss")
               end);
  torch_save (checkpoint_record epoch (parameters inner) (st_optimizer st) loss)
             checkpoint_path;;
  print (Msg ("Saved checkpoint: " +:+ checkpoint_path)).

(** The condition of line 119. *)
Definition save_due (epoch : Z) : bool :=
  (epoch `mod` save_every =? 0) && negb (epoch =? 0).

(** One iteration of the epoch loop (lines 84 to 127). *)
Definition train_epoch (e : env) (epoch : Z) (st : train_state) : M train_state :=
  '(st, total_loss) ← train_batches e st;
  avg ← lift (PyFloat.div_int total_loss (PyList.len (data_loader e)));
  print (EpochLoss (epoch + 1) avg);;
  logging_info (EpochLoss (epoch + 1) avg);;
  (if save_due epoch then save_checkpoint st epoch else mret tt);;
  mret st.

(** **** What one epoch computes

    The variables after the batch loop of an epoch entered in state [st],
    and the world at that point, just before the checkpoint step. *)

Definition state_after_epoch (e : env) (st : train_state) : train_state :=
  let po := (parameters (st_model st), st_optimizer st) in
  TrainState (set_parameters (st_model st) (after_batches e (data_loader e) po).1)
             (after_batches e (data_loader e) po).2
             (st_step st + PyList.len (data_loader e))
             (last_loss (st_loss st) (losses e (data_loader e) po)).

Definition epoch_loss_line (e : env) (epoch : Z) (st : train_state) : message :=
  let po := (parameters (st_model st), st_optimizer st) in
  EpochLoss (epoch + 1)
    (PyFloat.div (PyFloat.fsum (losses e (data_loader e) po))
                 (PyFloat.round_int (PyList.len (data_loader e)))).

Definition world_after_batches (e : env) (epoch : Z) (st : train_state) (w : world)
  : world :=
  let po := (parameters (st_model st), st_optimizer st) in
  World (fs w)
        (trace w ++ forward_events (data_loader e))
        (stdout w ++ [epoch_loss_line e epoch st])
        (logfile w ++ step_logs (st_step st) [] (losses e (data_loader e) po)
                   ++ [epoch_loss_line e epoch st]).

Definition train (e : env) (m : model) (optimizer : state_dict) (start_epoch : Z)
  : M train_state :=
  foldM (train_epoch e) (PyList.range start_epoch num_epochs)
        (TrainState m optimizer 0 None).

(** *** main *)

Definition pretrain_url : string :=
  "https://drive.google.com/uc?id=1BDEPaEWFEB2ADquS1VYp5iLZYVngw799".

(** Lines 31 to 37. *)
Definition prepare_data (e : env) : M unit :=
  found ← path_exists "midis";
  if negb found then
    Utils.load_pretrain_data e pretrain_url "midis.zip" "midis";;
    Utils.split_pretrain_data e "midis" 1024
  else mret tt.

Definition main (e : env) : M unit :=
  makedirs_exist_ok "pretrain_checkpoints";;
  prepare_data e;;
  let model := build_model e in
  '(model, optimizer, start_epoch) ← resume model (initial_opt e);
  train e model optimizer start_epoch;;
  mret tt.

End Pretrain.

(** ** Sample inputs *)

Module Sample.

Definition one : spec_float := S754_finite false 4503599627370496 (-52).

Definition corpus : list string :=
  ["midis/a.mid"; "midis/b.mid"; "midis/c.mid"; "midis/d.mid"; "midis/e.mid";
   "midis/f.mid"; "midis/g.mid"; "midis/h.mid"; "midis/i.mid"; "midis/j.mid";
   "midis/k.mid"].

Definition remi : tokenizer :=
  Tokenizer [("PAD_None", 0); ("BOS_None", 1); ("EOS_None", 2); ("Bar_None", 3)]
            (fun _ => Ok "MThd").

(** A batch of two sequences, the second padded by two positions. *)
Definition padded : batch :=
  Batch [[1; 3; 2; 3]; [1; 3; 0; 0]] [[1; 1; 1; 1]; [1; 1; 0; 0]].

Definition unpadded : batch :=
  Batch [[1; 3; 2; 3]; [1; 3; 3; 2]] [[1; 1; 1; 1]; [1; 1; 1; 1]].

(** A machine with [devices] accelerators, a loader of [batches] and a
    model whose loss is 1.0 at every step. *)
Definition machine (devices : Z) (batches : list batch) : env :=
  Env (fun _ => Some ["a.mid"; "b.mid"; "c/d.mid"])
      (fun _ => corpus) remi devices ∅ ∅ batches
      (fun p o _ _ _ => (p, o, one)).

Definition empty_world : world := World ∅ [] [] [].

(** A disk on which the corpus was already prepared. *)
Definition prepared : world :=
  World (<["midis" := Dir]> (<["pretrain_checkpoints" := Dir]> ∅)) [] [] [].

Definition saved_checkpoint : gmap string pyval :=
  Pretrain.checkpoint_record 4 ∅ ∅ one.

(** The same disk after an earlier run left a checkpoint of epoch 4. *)
Definition resumable : world :=
  World (<[Pretrain.checkpoint_path := Pickle saved_checkpoint]> (fs prepared)) [] [] [].

(** The same disk with a checkpoint of the last epoch at the resume path. *)
Definition finished : world :=
  World (<[Pretrain.checkpoint_path := Pickle (Pretrain.checkpoint_record 19 ∅ ∅ one)]>
           (fs prepared)) [] [] [].

(** Parameters and an optimizer state as a training step may leave them. *)
Definition weights : state_dict := ({[ "w" := [one; PyFloat.f0_8] ]} : gmap string tensor).

Definition moments : state_dict := ({[ "lr" := [PyFloat.f0_1] ]} : gmap string tensor).

End Sample.

(** * Properties *)

(** ** Binary64 rounding: [int(n * 0.8)] and [int(n * 0.1)] *)

Module PyFloatFacts.
Import PyFloat.

Lemma digits2_pos_log2 (p : positive) :
  Z.pos (digits2_pos p) = Z.log2 (Z.pos p) + 1.
Proof.
  assert (H : forall q, digits2_pos q = Pos.size q)
    by (induction q as [q IH|q IH|]; simpl; congruence).
  rewrite H. destruct p; simpl; lia.
Qed.

Lemma digits2_bounds (p : positive) :
  2 ^ (Z.pos (digits2_pos p) - 1) <= Z.pos p < 2 ^ Z.pos (digits2_pos p).
Proof.
  rewrite digits2_pos_log2.
  replace (Z.log2 (Z.pos p) + 1 - 1) with (Z.log2 (Z.pos p)) by lia.
  replace (Z.log2 (Z.pos p) + 1) with (Z.succ (Z.log2 (Z.pos p))) by lia.
  apply Z.log2_spec. lia.
Qed.

Lemma iter_pos_nat {A : Type} (f : A -> A) (p : positive) (x : A) :
  SpecFloat.iter_pos f p x = Nat.iter (Pos.to_nat p) f x.
Proof.
  revert x. induction p as [p IH|p IH|]; intros x; cbn [SpecFloat.iter_pos].
  - rewrite !IH. rewrite Pos2Nat.inj_xI.
    replace (S (2 * Pos.to_nat p))%nat with (Pos.to_nat p + (Pos.to_nat p + 1))%nat by lia.
    rewrite !Nat.iter_add. reflexivity.
  - rewrite !IH. rewrite Pos2Nat.inj_xO.
    replace (2 * Pos.to_nat p)%nat with (Pos.to_nat p + Pos.to_nat p)%nat by lia.
    rewrite Nat.iter_add. reflexivity.
  - reflexivity.
Qed.

Lemma shr_1_nonneg (q : Z) (r s : bool) :
  0 <= q ->
  shr_1 (Build_shr_record q r s) = Build_shr_record (q / 2) (Z.odd q) (r || s).
Proof.
  intros Hq. rewrite <- Z.div2_div.
  destruct q as [|[p|p|]|p]; try lia; reflexivity.
Qed.

Lemma shr_iter (n : nat) (m : Z) (r0 s0 : bool) :
  0 <= m ->
  exists s, Nat.iter (S n) shr_1 (Build_shr_record m r0 s0)
            = Build_shr_record (m / 2 ^ Z.of_nat (S n)) (Z.testbit m (Z.of_nat n)) s.
Proof.
  intros Hm. induction n as [|n [s IH]].
  - exists (r0 || s0). change (Nat.iter 1 shr_1 ?x) with (shr_1 x).
    rewrite shr_1_nonneg by lia. f_equal.
  - exists (Z.testbit m (Z.of_nat n) || s).
    change (Nat.iter (S (S n)) shr_1 ?x) with (shr_1 (Nat.iter (S n) shr_1 x)).
    rewrite IH. rewrite shr_1_nonneg by (apply Z.div_pos; lia).
    f_equal.
    + rewrite Z.div_div by lia. f_equal.
      rewrite (Nat2Z.inj_succ (S n)), Z.pow_succ_r by lia. lia.
    + rewrite Z.testbit_odd, Z.shiftr_div_pow2 by lia. reflexivity.
Qed.

Lemma testbit_true_mod (m n : Z) :
  0 <= m -> 0 <= n -> Z.testbit m n = true -> 2 ^ n <= m mod 2 ^ (n + 1).
Proof.
  intros Hm Hn Hb. apply Z.testbit_true in Hb; [|lia].
  rewrite Z.pow_add_r, Z.pow_1_r by lia.
  rewrite Z.rem_mul_r by lia. 
  rewrite Hb. pose proof (Z.mod_pos_bound m (2 ^ n) ltac:(lia)). lia.
Qed.

Lemma shr_nonpos (mrs : shr_record) (e n : Z) : n <= 0 -> shr mrs e n = (mrs, e).
Proof. intros Hn. destruct n; try lia; reflexivity. Qed.

Lemma shr_pos (m e k : Z) :
  0 <= m -> 0 < k ->
  exists s, shr (Build_shr_record m false false) e k
            = (Build_shr_record (m / 2 ^ k) (Z.testbit m (k - 1)) s, e + k).
Proof.
  intros Hm Hk. destruct k as [|p|p]; try lia.
  unfold shr. rewrite iter_pos_nat.
  destruct (Pos2Nat.is_succ p) as [n Hn]. rewrite Hn.
  destruct (shr_iter n m false false Hm) as [s Hs]. exists s. rewrite Hs.
  assert (Z.pos p = Z.of_nat (S n)) by lia.
  replace (Z.pos p - 1) with (Z.of_nat n) by lia.
  replace (Z.pos p) with (Z.of_nat (S n)) by lia. reflexivity.
Qed.

Lemma fexp64 (x : Z) : fexp 53 1024 x = Z.max (x - 53) (-1074).
Proof. reflexivity. Qed.

Lemma shr_fexp_id (m : positive) (e : Z) :
  Z.pos (digits2_pos m) <= 53 -> -1074 <= e ->
  shr_fexp 53 1024 (Z.pos m) e loc_Exact = (Build_shr_record (Z.pos m) false false, e).
Proof.
  intros Hd He. unfold shr_fexp. rewrite fexp64. apply shr_nonpos.
  cbn [Zdigits2]. lia.
Qed.

Lemma shr_fexp_shift (m : positive) (e : Z) :
  53 < Z.pos (digits2_pos m) -> -1074 <= Z.pos (digits2_pos m) + e - 53 ->
  let k := Z.pos (digits2_pos m) - 53 in
  exists s, shr_fexp 53 1024 (Z.pos m) e loc_Exact
            = (Build_shr_record (Z.pos m / 2 ^ k) (Z.testbit (Z.pos m) (k - 1)) s, e + k).
Proof.
  intros Hd He k. unfold shr_fexp. rewrite fexp64. cbn [Zdigits2 shr_record_of_loc].
  replace (Z.max (Z.pos (digits2_pos m) + e - 53) (-1074) - e) with k by lia.
  apply shr_pos; lia.
Qed.

(** Rounding to nearest moves the shifted mantissa by at most half a unit. *)
Lemma round_nearest_even_bounds (m k : Z) (s : bool) :
  0 <= m -> 0 < k ->
  let q' := round_nearest_even (m / 2 ^ k)
              (loc_of_shr_record (Build_shr_record (m / 2 ^ k) (Z.testbit m (k - 1)) s)) in
  (q' = m / 2 ^ k \/ q' = m / 2 ^ k + 1) /\ 2 * (q' * 2 ^ k) <= 2 * m + 2 ^ k.
Proof.
  intros Hm Hk q'.
  assert (Hpow : 0 < 2 ^ k) by (apply Z.pow_pos_nonneg; lia).
  pose proof (Z.div_mod m (2 ^ k) ltac:(lia)) as Hdm.
  pose proof (Z.mod_pos_bound m (2 ^ k) Hpow) as Hmod.
  assert (Hlow : 2 * (m / 2 ^ k * 2 ^ k) <= 2 * m + 2 ^ k) by lia.
  destruct (Z.testbit m (k - 1)) eqn:Hb.
  - apply testbit_true_mod in Hb; [|lia|lia].
    replace (k - 1 + 1) with k in Hb by lia.
    assert (H2 : 2 ^ k = 2 * 2 ^ (k - 1)).
    { rewrite <- Z.pow_succ_r by lia. f_equal. lia. }
    assert (Hup : 2 * ((m / 2 ^ k + 1) * 2 ^ k) <= 2 * m + 2 ^ k) by lia.
    subst q'. unfold loc_of_shr_record, round_nearest_even.
    destruct s; [|destruct (Z.even (m / 2 ^ k))]; split; auto.
  - subst q'. unfold loc_of_shr_record, round_nearest_even.
    destruct s; split; auto.
Qed.

Lemma binary_round_aux_small (p : positive) (e : Z) :
  Z.pos (digits2_pos p) <= 53 -> -1074 <= e <= 971 ->
  binary_round_aux 53 1024 false (Z.pos p) e loc_Exact = S754_finite false p e.
Proof.
  intros Hd He. unfold binary_round_aux.
  rewrite shr_fexp_id by lia. cbn [shr_m loc_of_shr_record round_nearest_even].
  rewrite shr_fexp_id by lia. cbn [shr_m].
  replace (e <=? 1024 - 53) with true by (symmetry; apply Z.leb_le; lia).
  reflexivity.
Qed.

Lemma renormalise (q e : Z) :
  2 ^ 52 <= q <= 2 ^ 53 -> -1074 <= e < 971 ->
  exists m' e',
    (let '(mrs, e'') := shr_fexp 53 1024 q e loc_Exact in
     match shr_m mrs with
     | Z0 => S754_zero false
     | Z.pos m => if e'' <=? 1024 - 53 then S754_finite false m e'' else S754_infinity false
     | Z.neg _ => S754_nan
     end) = S754_finite false m' e'
    /\ e <= e' /\ Z.pos m' * 2 ^ (e' - e) = q.
Proof.
  intros Hq He.
  change (2 ^ 52) with 4503599627370496 in Hq.
  change (2 ^ 53) with 9007199254740992 in Hq.
  destruct (Z.eq_dec q 9007199254740992) as [->|Hne].
  - exists 4503599627370496%positive, (e + 1).
    unfold shr_fexp. rewrite fexp64.
    change (Zdigits2 9007199254740992) with 54.
    replace (Z.max (54 + e - 53) (-1074) - e) with 1 by lia.
    cbn [shr_record_of_loc shr SpecFloat.iter_pos].
    change (shr_1 {| shr_m := 9007199254740992; shr_r := false; shr_s := false |})
      with {| shr_m := 4503599627370496; shr_r := false; shr_s := false |}.
    cbn [shr_m].
    replace (e + 1 <=? 1024 - 53) with true by (symmetry; apply Z.leb_le; lia).
    split; [reflexivity|]. split; [lia|].
    replace (e + 1 - e) with 1 by lia. reflexivity.
  - destruct q as [|x|x]; [lia| |lia].
    assert (Hdx : Z.pos (digits2_pos x) = 53).
    { rewrite digits2_pos_log2. rewrite (Z.log2_unique (Z.pos x) 52); [lia|lia|].
      change (2 ^ 52) with 4503599627370496.
      change (2 ^ Z.succ 52) with 9007199254740992. lia. }
    exists x, e. rewrite shr_fexp_id by lia. cbn [shr_m].
    replace (e <=? 1024 - 53) with true by (symmetry; apply Z.leb_le; lia).
    split; [reflexivity|]. split; [lia|].
    rewrite Z.sub_diag. lia.
Qed.

Lemma binary_round_aux_large (p : positive) (e : Z) :
  let d := Z.pos (digits2_pos p) in
  let k := d - 53 in
  53 < d -> -1074 <= e + k < 971 ->
  exists m' e',
    binary_round_aux 53 1024 false (Z.pos p) e loc_Exact = S754_finite false m' e'
    /\ e <= e'
    /\ Z.pos p / 2 ^ k * 2 ^ k <= Z.pos m' * 2 ^ (e' - e)
    /\ 2 * (Z.pos m' * 2 ^ (e' - e)) <= 2 * Z.pos p + 2 ^ k.
Proof.
  intros d k Hd He. unfold binary_round_aux.
  destruct (shr_fexp_shift p e) as [s Hs]; [fold d; lia|fold d; lia|].
  fold d in Hs. fold k in Hs. rewrite Hs. cbn [shr_m].
  destruct (round_nearest_even_bounds (Z.pos p) k s) as [Hq' Hub]; [lia|lia|].
  set (q' := round_nearest_even _ _) in *.
  pose proof (digits2_bounds p) as Hb. fold d in Hb.
  assert (Hpk : 0 < 2 ^ k) by (apply Z.pow_pos_nonneg; lia).
  assert (Hd1 : 2 ^ (d - 1) = 4503599627370496 * 2 ^ k).
  { change 4503599627370496 with (2 ^ 52).
    rewrite <- Z.pow_add_r by lia. f_equal. lia. }
  assert (Hd2 : 2 ^ d = 9007199254740992 * 2 ^ k).
  { change 9007199254740992 with (2 ^ 53).
    rewrite <- Z.pow_add_r by lia. f_equal. lia. }
  assert (Hq : 4503599627370496 <= Z.pos p / 2 ^ k < 9007199254740992).
  { split.
    - apply Z.div_le_lower_bound; lia.
    - apply Z.div_lt_upper_bound; lia. }
  destruct (renormalise q' (e + k)) as (m' & e' & Hr & Hee & Hv).
  { change (2 ^ 52) with 4503599627370496.
    change (2 ^ 53) with 9007199254740992. lia. }
  { lia. }
  exists m', e'. rewrite Hr. split; [reflexivity|]. split; [lia|].
  replace (e' - e) with (e' - (e + k) + k) by lia.
  rewrite Z.pow_add_r by lia. rewrite Z.mul_assoc, Hv.
  split; [|exact Hub].
  apply Z.mul_le_mono_nonneg_r; lia.
Qed.

Lemma pos_iter_xO (m d : positive) : Z.pos (Pos.iter xO m d) = Z.pos m * 2 ^ Z.pos d.
Proof.
  rewrite <- Z.shiftl_mul_pow2 by lia. cbn [Z.shiftl].
  apply (Pos.iter_swap_gen _ _ Z.pos xO (Z.mul 2)). reflexivity.
Qed.

Lemma shl_align_spec (mx : positive) (ex ex' : Z) :
  ex' <= ex ->
  exists mz, shl_align mx ex ex' = (mz, ex') /\ Z.pos mz = Z.pos mx * 2 ^ (ex - ex').
Proof.
  intros Hle. unfold shl_align. destruct (ex' - ex) as [|d|d] eqn:Hd; try lia.
  - exists mx. replace ex' with ex by lia. rewrite Z.sub_diag. split; [reflexivity|lia].
  - exists (Pos.iter xO mx d). split; [reflexivity|].
    rewrite pos_iter_xO. f_equal. f_equal. lia.
Qed.

Lemma of_int_normal (n : positive) :
  let d := Z.pos (digits2_pos n) in
  Z.pos n < 2 ^ 53 ->
  exists mz, of_int (Z.pos n) = Ok (S754_finite false mz (d - 53))
             /\ Z.pos mz = Z.pos n * 2 ^ (53 - d)
             /\ Z.pos (digits2_pos mz) = 53.
Proof.
  intros d Hn.
  assert (Hd : 1 <= d <= 53).
  { subst d. rewrite digits2_pos_log2.
    pose proof (Z.log2_nonneg (Z.pos n)).
    assert (Z.log2 (Z.pos n) < 53) by (apply Z.log2_lt_pow2; lia). lia. }
  unfold of_int, round_int, binary_normalize, binary_round.
  fold d. rewrite fexp64.
  destruct (shl_align_spec n 0 (Z.max (d + 0 - 53) (-1074))) as (mz & Hal & Hmz); [lia|].
  unfold PyFloat.prec, PyFloat.emax. rewrite Hal.
  replace (Z.max (d + 0 - 53) (-1074)) with (d - 53) in * by lia.
  replace (0 - (d - 53)) with (53 - d) in Hmz by lia.
  assert (Hdz : Z.pos (digits2_pos mz) = 53).
  { rewrite digits2_pos_log2, Hmz, Z.log2_mul_pow2 by lia.
    fold (Z.log2 (Z.pos n)). pose proof (digits2_pos_log2 n). fold d in H. lia. }
  rewrite binary_round_aux_small by lia.
  exists mz. auto.
Qed.

Lemma of_int_inv (n : Z) (x : spec_float) : of_int n = Ok x -> round_int n = x.
Proof. unfold of_int. destruct (round_int n); intros H; congruence. Qed.

Lemma of_int_ok (n : Z) : 0 <= n < 2 ^ 53 -> of_int n = Ok (round_int n).
Proof.
  intros Hn. destruct n as [|p|p]; [reflexivity| |lia].
  destruct (of_int_normal p) as (mz & Hof & _); [lia|].
  rewrite Hof. f_equal. symmetry. apply of_int_inv. exact Hof.
Qed.

Lemma to_int_bounds (m : positive) (e' e k0 : Z) :
  e <= 0 -> e <= e' ->
  k0 * 2 ^ (- e) <= Z.pos m * 2 ^ (e' - e) < (k0 + 1) * 2 ^ (- e) ->
  to_int (S754_finite false m e') = Ok k0.
Proof.
  intros He Hee [Hlo Hhi]. unfold to_int. f_equal.
  destruct (0 <=? e') eqn:Hs.
  - apply Z.leb_le in Hs.
    replace (e' - e) with (e' + - e) in * by lia.
    rewrite Z.pow_add_r, Z.mul_assoc in * by lia.
    assert (0 < 2 ^ (- e)) by (apply Z.pow_pos_nonneg; lia).
    apply Z.mul_le_mono_pos_r in Hlo; [|lia].
    apply Z.mul_lt_mono_pos_r in Hhi; [|lia]. lia.
  - apply Z.leb_gt in Hs.
    replace (- e) with (- e' + (e' - e)) in * by lia.
    rewrite Z.pow_add_r, Z.mul_assoc in * by lia.
    assert (0 < 2 ^ (e' - e)) by (apply Z.pow_pos_nonneg; lia).
    assert (0 < 2 ^ (- e')) by (apply Z.pow_pos_nonneg; lia).
    apply Z.mul_le_mono_pos_r in Hlo; [|lia].
    apply Z.mul_lt_mono_pos_r in Hhi; [|lia].
    symmetry. apply Z.div_unique with (r := Z.pos m - k0 * 2 ^ (- e')); lia.
Qed.

(** [int(n * c)] for a double [c = mc * 2^(-53-t)] with a full mantissa:
    the truncated product is [k0] as soon as the exact product lies in
    [[k0, k0 + 1)] with a margin of [n * 2^(-53-t)] below [k0 + 1]. *)
Lemma int_mul_to_int (n : Z) (mc : positive) (t k0 : Z) :
  1 <= n < 2 ^ 53 -> 2 ^ 52 <= Z.pos mc < 2 ^ 53 -> 0 <= t <= 900 ->
  k0 * 2 ^ (53 + t) <= n * Z.pos mc ->
  n * Z.pos mc + n < (k0 + 1) * 2 ^ (53 + t) ->
  (x ← int_mul n (S754_finite false mc (- 53 - t)); to_int x) = Ok k0.
Proof.
  intros Hn Hmc Ht Hlo Hhi.
  destruct n as [|n|n]; try lia.
  destruct (of_int_normal n) as (mz & Hof & Hmz & Hdz); [lia|].
  set (dn := Z.pos (digits2_pos n)) in *.
  unfold int_mul. rewrite Hof. cbn [mbind result_bind].
  unfold mul, SFmul, PyFloat.prec, PyFloat.emax. cbn [xorb].
  set (p := (mz * mc)%positive). set (e := dn - 53 + (- 53 - t)).
  pose proof (digits2_bounds n) as Hbn. fold dn in Hbn.
  pose proof (digits2_bounds mz) as Hbz. rewrite Hdz in Hbz.
  pose proof (digits2_bounds p) as Hbp.
  set (d := Z.pos (digits2_pos p)) in *.
  assert (Hdn : 1 <= dn <= 53).
  { split; [subst dn; lia|].
    destruct (Z.le_gt_cases dn 53) as [|Hgt]; [lia|exfalso].
    assert (2 ^ 53 <= 2 ^ (dn - 1)) by (apply Z.pow_le_mono_r; lia). lia. }
  assert (Hp : Z.pos p = Z.pos mz * Z.pos mc) by (subst p; lia).
  change (2 ^ (53 - 1)) with (2 ^ 52) in Hbz.
  assert (Hplo : 2 ^ 104 <= Z.pos p).
  { rewrite Hp. change (2 ^ 104) with (2 ^ 52 * 2 ^ 52).
    apply Z.mul_le_mono_nonneg; lia. }
  assert (Hphi : Z.pos p < 2 ^ 106).
  { rewrite Hp. change (2 ^ 106) with (2 ^ 53 * 2 ^ 53).
    apply Z.mul_lt_mono_nonneg; lia. }
  assert (Hd : 105 <= d <= 106).
  { split.
    - destruct (Z.le_gt_cases 105 d) as [|Hlt]; [lia|exfalso].
      assert (2 ^ d <= 2 ^ 104) by (apply Z.pow_le_mono_r; lia). lia.
    - destruct (Z.le_gt_cases d 106) as [|Hgt]; [lia|exfalso].
      assert (2 ^ 106 <= 2 ^ (d - 1)) by (apply Z.pow_le_mono_r; lia). lia. }
  destruct (binary_round_aux_large p e) as (m' & e' & Hr & Hee & Hvlo & Hvhi);
    [fold d; lia | fold d; subst e; lia |].
  fold d in Hvlo, Hvhi. set (k := d - 53) in *.
  rewrite Hr. apply to_int_bounds with (e := e); [subst e; lia|lia|].
  set (sc := 2 ^ (53 - dn)) in *.
  assert (HS : 0 < sc) by (apply Z.pow_pos_nonneg; lia).
  assert (He : 2 ^ (- e) = 2 ^ (53 + t) * sc).
  { subst sc e. rewrite <- Z.pow_add_r by lia. f_equal. lia. }
  assert (Hk : 2 ^ (- e) = 2 ^ (- e - k) * 2 ^ k).
  { rewrite <- Z.pow_add_r by (subst e k; lia). f_equal. lia. }
  assert (Hpk : 0 < 2 ^ k) by (apply Z.pow_pos_nonneg; subst k; lia).
  assert (HP : Z.pos p = Z.pos n * Z.pos mc * sc) by (rewrite Hp, Hmz; lia).
  assert (Hk0 : k0 * 2 ^ (- e) <= Z.pos p).
  { rewrite He, HP, Z.mul_assoc. apply Z.mul_le_mono_nonneg_r; lia. }
  split.
  - eapply Z.le_trans; [|exact Hvlo].
    rewrite Hk, Z.mul_assoc. apply Z.mul_le_mono_nonneg_r; [lia|].
    apply Z.div_le_lower_bound; [lia|].
    rewrite Hk, Z.mul_assoc in Hk0. lia.
  - assert (H2k : 2 ^ k <= 2 * (Z.pos n * sc)).
    { assert (2 ^ k <= 2 ^ 53) by (apply Z.pow_le_mono_r; subst k; lia).
      assert (2 ^ 53 = 2 * (2 ^ (dn - 1) * sc)).
      { subst sc. rewrite <- Z.pow_add_r, <- Z.pow_succ_r by lia. f_equal. lia. }
      assert (2 ^ (dn - 1) * sc <= Z.pos n * sc)
        by (apply Z.mul_le_mono_nonneg_r; lia).
      lia. }
    assert (Hs : (Z.pos n * Z.pos mc + Z.pos n) * sc < (k0 + 1) * 2 ^ (53 + t) * sc)
      by (apply Z.mul_lt_mono_pos_r; lia).
    rewrite He. lia.
Qed.

Lemma int_mul_0_8 (n : Z) :
  0 <= n < 2 ^ 50 -> (x ← int_mul n f0_8; to_int x) = Ok (8 * n / 10).
Proof.
  intros Hn. destruct (Z.eq_dec n 0) as [->|Hne]; [reflexivity|].
  change (2 ^ 50) with 1125899906842624 in Hn.
  pose proof (Z.div_mod (8 * n) 10 ltac:(lia)) as Hdm.
  pose proof (Z.mod_pos_bound (8 * n) 10 ltac:(lia)) as Hmod.
  apply (int_mul_to_int n mant_08 0 (8 * n / 10)).
  - change (2 ^ 53) with 9007199254740992. lia.
  - unfold mant_08. change (2 ^ 52) with 4503599627370496.
    change (2 ^ 53) with 9007199254740992. lia.
  - lia.
  - unfold mant_08. change (2 ^ (53 + 0)) with 9007199254740992. lia.
  - unfold mant_08. change (2 ^ (53 + 0)) with 9007199254740992. lia.
Qed.

Lemma int_mul_0_1 (n : Z) :
  0 <= n < 2 ^ 50 -> (x ← int_mul n f0_1; to_int x) = Ok (n / 10).
Proof.
  intros Hn. destruct (Z.eq_dec n 0) as [->|Hne]; [reflexivity|].
  change (2 ^ 50) with 1125899906842624 in Hn.
  pose proof (Z.div_mod n 10 ltac:(lia)) as Hdm.
  pose proof (Z.mod_pos_bound n 10 ltac:(lia)) as Hmod.
  apply (int_mul_to_int n mant_08 3 (n / 10)).
  - change (2 ^ 53) with 9007199254740992. lia.
  - unfold mant_08. change (2 ^ 52) with 4503599627370496.
    change (2 ^ 53) with 9007199254740992. lia.
  - lia.
  - unfold mant_08. change (2 ^ (53 + 3)) with 72057594037927936. lia.
  - unfold mant_08. change (2 ^ (53 + 3)) with 72057594037927936. lia.
Qed.

(** The bound on [n] cannot be dropped altogether: close to 2^53 the
    product is rounded up past the next integer. *)
Remark int_mul_0_8_large :
  (x ← int_mul (2 ^ 53 - 1) f0_8; to_int x) = Ok (8 * (2 ^ 53 - 1) / 10 + 1).
Proof. vm_compute. reflexivity. Qed.

End PyFloatFacts.


(** ** Slices *)

Module PyListFacts.
Import PyList.

Lemma len_nonneg {A : Type} (l : list A) : 0 <= len l.
Proof. unfold len. lia. Qed.

Lemma slice_prefix {A : Type} (l : list A) (a : Z) :
  0 <= a <= len l -> slice l None (Some a) = take (Z.to_nat a) l.
Proof.
  intros Ha. unfold slice, adjust_index.
  replace (a <? 0) with false by (symmetry; apply Z.ltb_ge; lia).
  rewrite Z.min_l, Z.sub_0_r by lia. reflexivity.
Qed.

Lemma slice_middle {A : Type} (l : list A) (a b : Z) :
  0 <= a -> 0 <= b -> a + b <= len l ->
  slice l (Some a) (Some (a + b)) = take (Z.to_nat b) (drop (Z.to_nat a) l).
Proof.
  intros Ha Hb Hab. unfold slice, adjust_index.
  replace (a <? 0) with false by (symmetry; apply Z.ltb_ge; lia).
  replace (a + b <? 0) with false by (symmetry; apply Z.ltb_ge; lia).
  rewrite !Z.min_l by lia. f_equal. f_equal. lia.
Qed.

Lemma slice_suffix {A : Type} (l : list A) (a : Z) :
  0 <= a <= len l -> slice l (Some a) None = drop (Z.to_nat a) l.
Proof.
  intros Ha. unfold slice, adjust_index.
  replace (a <? 0) with false by (symmetry; apply Z.ltb_ge; lia).
  rewrite Z.min_l by lia. apply take_ge.
  rewrite length_drop. unfold len. lia.
Qed.

(** [l[:-1]] drops the last element, if there is one. *)
Lemma slice_drop_last {A : Type} (l : list A) :
  slice l None (Some (-1)) = take (length l - 1) l.
Proof.
  unfold slice, adjust_index. cbn [Z.ltb Z.compare]. rewrite Z.sub_0_r.
  f_equal. unfold len. lia.
Qed.

Lemma range_unfold (a b : Z) :
  a < b -> range a b = a :: range (a + 1) b.
Proof.
  intros Hab. unfold range.
  replace (b - a) with (Z.succ (b - (a + 1))) by lia.
  rewrite seqZ_cons by lia. f_equal. f_equal; lia.
Qed.

Lemma range_empty (a b : Z) : b <= a -> range a b = [].
Proof. intros Hab. unfold range. apply seqZ_nil. lia. Qed.

End PyListFacts.

(** ** Computations on the world *)

Module WorldFacts.

Lemma bind_ok {A B : Type} (m : M A) (k : A -> M B) (w w' : world) (a : A) :
  m w = (Ok a, w') -> (m ≫= k) w = k a w'.
Proof. intros H. unfold mbind, M_bind. rewrite H. reflexivity. Qed.

Lemma bind_raise {A B : Type} (m : M A) (k : A -> M B) (w w' : world) (e : exn) :
  m w = (Raise e, w') -> (m ≫= k) w = (Raise e, w').
Proof. intros H. unfold mbind, M_bind. rewrite H. reflexivity. Qed.

Lemma makedirs_ok (w : world) (p : string) :
  dir_or_free w p ->
  exists d, makedirs_exist_ok p w = (Ok tt, World d (trace w) (stdout w) (logfile w))
            /\ d !! p = Some Dir
            /\ forall q, q ≠ p -> d !! q = fs w !! q.
Proof.
  intros [H|H]; unfold makedirs_exist_ok; rewrite H.
  - exists (<[p := Dir]> (fs w)). split; [reflexivity|]. split.
    + apply lookup_insert_eq.
    + intros q Hq. apply lookup_insert_ne. congruence.
  - exists (fs w). destruct w; auto.
Qed.

End WorldFacts.

(** ** The corpus splitter *)

Module SplitFacts.
Import PyList PyListFacts Utils.

(** The counts computed in binary64 are the exact floors. *)
Lemma split_paths_slices (midi_paths : list string) :
  let n := len midi_paths in
  n < 2 ^ 50 ->
  split_paths midi_paths =
    Ok (take (Z.to_nat (8 * n / 10)) midi_paths,
        take (Z.to_nat (n / 10)) (drop (Z.to_nat (8 * n / 10)) midi_paths),
        drop (Z.to_nat (8 * n / 10 + n / 10)) midi_paths).
Proof.
  intros n Hn. pose proof (len_nonneg midi_paths) as H0. fold n in H0.
  unfold split_paths. fold n.
  rewrite PyFloatFacts.int_mul_0_8, PyFloatFacts.int_mul_0_1 by lia.
  cbn [mbind result_bind].
  assert (0 <= 8 * n / 10) by (apply Z.div_pos; lia).
  assert (0 <= n / 10) by (apply Z.div_pos; lia).
  assert (8 * n / 10 + n / 10 <= n).
  { pose proof (Z.div_mod (8 * n) 10 ltac:(lia)).
    pose proof (Z.mod_pos_bound (8 * n) 10 ltac:(lia)).
    pose proof (Z.div_mod n 10 ltac:(lia)).
    pose proof (Z.mod_pos_bound n 10 ltac:(lia)). lia. }
  rewrite slice_prefix, slice_middle, slice_suffix by (fold n; lia).
  reflexivity.
Qed.


End SplitFacts.



(** C10. For a non-empty corpus (of fewer than 2^50 files) the test subset
    of [split_pretrain_data] holds at least one file; a corpus of a single
    file goes to the test subset whole, the other two subsets being empty. *)
Theorem split_test_subset_nonempty (midi_paths : list string) :
  let n := PyList.len midi_paths in
  1 <= n -> n < 2 ^ 50 ->
  exists train valid test,
    Utils.split_paths midi_paths = Ok (train, valid, test)
    /\ test = PyList.slice midi_paths
                (Some (PyList.len train + PyList.len valid)) None
    /\ PyList.len train + PyList.len valid < n
    /\ 1 <= PyList.len test
    /\ (n = 1 -> train = [] /\ valid = [] /\ test = midi_paths).
Proof.
  intros n H1 Hn.
  pose proof (SplitFacts.split_paths_slices midi_paths Hn) as Hs. fold n in Hs.
  assert (Ha : 0 <= 8 * n / 10) by (apply Z.div_pos; lia).
  assert (Hb : 0 <= n / 10) by (apply Z.div_pos; lia).
  assert (Hab : 8 * n / 10 + n / 10 < n).
  { pose proof (Z.div_mod (8 * n) 10 ltac:(lia)).
    pose proof (Z.mod_pos_bound (8 * n) 10 ltac:(lia)).
    pose proof (Z.div_mod n 10 ltac:(lia)).
    pose proof (Z.mod_pos_bound n 10 ltac:(lia)). lia. }
  assert (Hlen : length midi_paths = Z.to_nat n) by (subst n; unfold PyList.len; lia).
  eexists _, _, _. split; [exact Hs|].
  assert (Lt : PyList.len (take (Z.to_nat (8 * n / 10)) midi_paths) = 8 * n / 10)
    by (unfold PyList.len; rewrite length_take; lia).
  assert (Lv : PyList.len (take (Z.to_nat (n / 10))
                             (drop (Z.to_nat (8 * n / 10)) midi_paths)) = n / 10)
    by (unfold PyList.len; rewrite length_take, length_drop; lia).
  rewrite Lt, Lv. split; [|split; [exact Hab|split]].
  - rewrite PyListFacts.slice_suffix by (fold n; lia). reflexivity.
  - unfold PyList.len. rewrite length_drop. lia.
  - intros ->. change (8 * 1 / 10) with 0. change (1 / 10) with 0.
    cbn [Z.to_nat Z.add take drop]. auto.
Qed.

Lemma split_test_subset_nonempty_witness :
  1 <= PyList.len ["midis/only.mid"] /\ PyList.len ["midis/only.mid"] < 2 ^ 50
  /\ Utils.split_paths ["midis/only.mid"] = Ok ([], [], ["midis/only.mid"]).
Proof.
  assert (H1 : 1 <= PyList.len ["midis/only.mid"]) by (vm_compute; discriminate).
  assert (H2 : PyList.len ["midis/only.mid"] < 2 ^ 50) by (vm_compute; reflexivity).
  split; [exact H1|]. split; [exact H2|].
  destruct (split_test_subset_nonempty ["midis/only.mid"] H1 H2)
    as (train & valid & test & Hs & _ & _ & _ & Hone).
  destruct (Hone eq_refl) as (-> & -> & ->). exact Hs.
Defined.

(** ** Token-to-MIDI conversion and evaluation metrics *)

Module ConvertFacts.
Import Utils.

Lemma id_to_token_lookup_acc (items : list (string * Z)) (d : gmap Z string) (i : Z) :
  foldl (fun d kv => <[kv.2 := kv.1]> d) d items !! i = None
  <-> d !! i = None /\ i ∉ items.*2.
Proof.
  revert d. induction items as [|[t j] items IH]; intros d; cbn [foldl fmap list_fmap].
  - split; [intros H; split; [exact H|apply not_elem_of_nil]|tauto].
  - rewrite IH. cbn [fst snd]. rewrite not_elem_of_cons.
    destruct (decide (j = i)) as [->|Hne].
    + rewrite lookup_insert_eq. split; [intros [H _]; discriminate|tauto].
    + rewrite lookup_insert_ne by exact Hne. split; [|tauto].
      intros [H1 H2]. split; [exact H1|]. split; [congruence|exact H2].
Qed.

(** The reverse dictionary knows exactly the ids of the vocabulary. *)
Lemma id_to_token_None (items : list (string * Z)) (i : Z) :
  id_to_token items !! i = None <-> i ∉ items.*2.
Proof.
  unfold id_to_token. rewrite id_to_token_lookup_acc, lookup_empty. tauto.
Qed.

(** The comprehension raises at the first id that the dictionary lacks. *)
Lemma comprehension_getitem_missing (d : gmap Z string) (token_ids : list Z) :
  (exists i, i ∈ token_ids /\ d !! i = None) ->
  exists k, k ∈ token_ids /\ d !! k = None
            /\ comprehension (getitem d) token_ids = Raise (KeyError (KInt k)).
Proof.
  induction token_ids as [|j token_ids IH]; intros (i & Hi & Hd).
  - apply elem_of_nil in Hi. contradiction.
  - cbn [comprehension]. destruct (d !! j) as [t|] eqn:Hj.
    + assert (Hg : getitem d j = Ok t) by (unfold getitem; rewrite Hj; reflexivity).
      apply elem_of_cons in Hi as [->|Hi]; [congruence|].
      destruct IH as (k & Hk & Hdk & Hc); [eauto|].
      exists k. split; [apply elem_of_cons; auto|]. split; [exact Hdk|].
      rewrite Hg, Hc. reflexivity.
    + assert (Hg : getitem d j = Raise (KeyError (KInt j)))
        by (unfold getitem; rewrite Hj; reflexivity).
      exists j. split; [apply elem_of_cons; auto|]. split; [exact Hj|].
      rewrite Hg. reflexivity.
Qed.

Lemma load_global_py : load_global "py" = Raise (NameError "py").
Proof. vm_compute. reflexivity. Qed.

Lemma load_global_muspy : load_global "muspy" = Ok tt.
Proof. vm_compute. reflexivity. Qed.

End ConvertFacts.

(** C5. When some element of the token ids is not an id of the tokenizer's
    vocabulary, [convert_to_midi] raises [KeyError] on such an id and leaves
    the world as it was: neither the debug text file nor the output file is
    written. When the ids of the vocabulary are 0, 1, ..., vocab_size - 1,
    this is the case for every sequence with an element outside
    [0, vocab_size). *)
Theorem convert_to_midi_unknown_id (token_ids : list Z) (tk : tokenizer)
    (dump_path : string) (w : world) :
  ((exists i, i ∈ token_ids /\ i ∉ (vocab tk).*2) ->
   exists k, k ∈ token_ids /\ (k ∉ (vocab tk).*2)
             /\ Utils.convert_to_midi token_ids tk dump_path w
                = (Raise (KeyError (KInt k)), w))
  /\ ((vocab tk).*2 ≡ₚ seqZ 0 (PyList.len (vocab tk)) ->
      (exists i, i ∈ token_ids /\ ~ (0 <= i < PyList.len (vocab tk))) ->
      exists k, k ∈ token_ids /\ ~ (0 <= k < PyList.len (vocab tk))
                /\ Utils.convert_to_midi token_ids tk dump_path w
                   = (Raise (KeyError (KInt k)), w)).
Proof.
  assert (Hmain : forall P : Z -> Prop,
             (forall i, ~ P i <-> i ∉ (vocab tk).*2) ->
             (exists i, i ∈ token_ids /\ ~ P i) ->
             exists k, k ∈ token_ids /\ ~ P k
                       /\ Utils.convert_to_midi token_ids tk dump_path w
                          = (Raise (KeyError (KInt k)), w)).
  { intros P HP (i & Hi & Hni).
    destruct (ConvertFacts.comprehension_getitem_missing
                (Utils.id_to_token (vocab tk)) token_ids) as (k & Hk & Hd & Hc).
    { exists i. split; [exact Hi|]. apply ConvertFacts.id_to_token_None, HP, Hni. }
    exists k. split; [exact Hk|]. split.
    - apply HP, ConvertFacts.id_to_token_None, Hd.
    - unfold Utils.convert_to_midi. apply WorldFacts.bind_raise.
      unfold lift. rewrite Hc. reflexivity. }
  split.
  - intros (i & Hi & Hni).
    apply (Hmain (fun j => j ∈ (vocab tk).*2)).
    + intros j. tauto.
    + exists i. tauto.
  - intros Hperm. apply Hmain. intros i. rewrite Hperm, elem_of_seqZ.
    pose proof (PyListFacts.len_nonneg (vocab tk)). split; intros H1 H2; apply H1; lia.
Qed.

Lemma convert_to_midi_unknown_id_witness :
  (exists i, i ∈ [1; 3; 7; 2] /\ i ∉ (vocab Sample.remi).*2)
  /\ (vocab Sample.remi).*2 ≡ₚ seqZ 0 (PyList.len (vocab Sample.remi))
  /\ (exists i, i ∈ [1; 3; 7; 2] /\ ~ (0 <= i < PyList.len (vocab Sample.remi)))
  /\ exists k, Utils.convert_to_midi [1; 3; 7; 2] Sample.remi "out.mid" Sample.empty_world
               = (Raise (KeyError (KInt k)), Sample.empty_world).
Proof.
  assert (H1 : exists i, i ∈ [1; 3; 7; 2] /\ i ∉ (vocab Sample.remi).*2).
  { exists 7. split; [rewrite !elem_of_cons; auto|].
    cbn. rewrite !not_elem_of_cons. repeat split; [lia..|apply not_elem_of_nil]. }
  assert (H2 : (vocab Sample.remi).*2 ≡ₚ seqZ 0 (PyList.len (vocab Sample.remi)))
    by reflexivity.
  assert (H3 : exists i, i ∈ [1; 3; 7; 2] /\ ~ (0 <= i < PyList.len (vocab Sample.remi))).
  { exists 7. split; [rewrite !elem_of_cons; auto|].
    vm_compute. intros [_ H]. discriminate H. }
  split; [exact H1|]. split; [exact H2|]. split; [exact H3|].
  destruct (convert_to_midi_unknown_id [1; 3; 7; 2] Sample.remi "out.mid"
              Sample.empty_world) as [_ Hb].
  destruct (Hb H2 H3) as (k & _ & _ & Hk). exists k. exact Hk.
Defined.

(** C8. [get_eval_metrics] returns no result, whatever the path and whatever
    the music-analysis library answers: the name [py] is bound nowhere, so
    the call written [py.polyphony] raises [NameError] as soon as the calls
    before it have returned. *)
Theorem get_eval_metrics_always_fails {music : Type} (muspy : Utils.muspy_api music)
    (midi_path : string) :
  (exists e, Utils.get_eval_metrics muspy midi_path = Raise e)
  /\ (forall m a b c,
        Utils.read_midi muspy midi_path = Ok m ->
        Utils.pitch_range muspy m = Ok a ->
        Utils.n_pitches_used muspy m = Ok b ->
        Utils.n_pitch_classes_used muspy m = Ok c ->
        Utils.get_eval_metrics muspy midi_path = Raise (NameError "py")).
Proof.
  assert (Hstep : forall (A : Type) (r : result A) (k : A -> result (list pyval)),
             (Utils.load_global "muspy" ≫= fun _ => r ≫= k) = r ≫= k)
    by (intros; rewrite ConvertFacts.load_global_muspy; reflexivity).
  assert (Hpy : forall (k : unit -> result (list pyval)),
             Utils.load_global "py" ≫= k = Raise (NameError "py"))
    by (intros; rewrite ConvertFacts.load_global_py; reflexivity).
  unfold Utils.get_eval_metrics. rewrite Hstep. split.
  - destruct (Utils.read_midi muspy midi_path) as [m|e]; [|eexists; reflexivity].
    cbn [mbind result_bind]. rewrite Hstep.
    destruct (Utils.pitch_range muspy m) as [a|e]; [|eexists; reflexivity].
    cbn [mbind result_bind]. rewrite Hstep.
    destruct (Utils.n_pitches_used muspy m) as [b|e]; [|eexists; reflexivity].
    cbn [mbind result_bind]. rewrite Hstep.
    destruct (Utils.n_pitch_classes_used muspy m) as [c|e]; [|eexists; reflexivity].
    cbn [mbind result_bind]. rewrite Hpy. eexists; reflexivity.
  - intros m a b c -> Ha Hb Hc. cbn [mbind result_bind].
    rewrite Hstep, Ha. cbn [mbind result_bind].
    rewrite Hstep, Hb. cbn [mbind result_bind].
    rewrite Hstep, Hc. cbn [mbind result_bind].
    apply Hpy.
Qed.

Lemma get_eval_metrics_always_fails_witness :
  Utils.get_eval_metrics
    (Utils.Muspy unit (fun _ => Ok tt) (fun _ => Ok (VInt 24)) (fun _ => Ok (VInt 12))
       (fun _ => Ok (VInt 7)) (fun _ => Ok (VInt 2)) (fun _ => Ok (VInt 1))
       (fun _ => Ok (VInt 0)))
    "generated.mid" = Raise (NameError "py").
Proof.
  eapply (proj2 (get_eval_metrics_always_fails _ "generated.mid")); reflexivity.
Defined.

(** ** Corpus acquisition *)

Module AcquireFacts.
Import Utils.

Lemma extracted_entry (target : string) (entries : list string) (d : gmap string file)
    (entry : string) :
  entry ∈ entries -> extracted target entries d !! (target +:+ "/" +:+ entry) = Some Blob.
Proof.
  unfold extracted. induction entries as [|x entries IH]; intros Hin.
  - apply elem_of_nil in Hin. contradiction.
  - cbn [foldr]. apply elem_of_cons in Hin as [->|Hin].
    + apply lookup_insert_eq.
    + destruct (decide (target +:+ "/" +:+ x = target +:+ "/" +:+ entry)) as [->|Hne].
      * apply lookup_insert_eq.
      * rewrite lookup_insert_ne by exact Hne. auto.
Qed.

Lemma extracted_other (target : string) (entries : list string) (d : gmap string file)
    (q : string) :
  q ≠ target -> (forall entry, target +:+ "/" +:+ entry ≠ q) ->
  extracted target entries d !! q = d !! q.
Proof.
  intros Hq Hent. unfold extracted. induction entries as [|x entries IH]; cbn [foldr].
  - apply lookup_insert_ne. congruence.
  - rewrite lookup_insert_ne by apply Hent. exact IH.
Qed.

Lemma extracted_target (target : string) (entries : list string) (d : gmap string file) :
  (forall entry, target +:+ "/" +:+ entry ≠ target) ->
  extracted target entries d !! target = Some Dir.
Proof.
  intros Hent. unfold extracted. induction entries as [|x entries IH]; cbn [foldr].
  - apply lookup_insert_eq.
  - rewrite lookup_insert_ne by apply Hent. exact IH.
Qed.

(** A successful download is followed by the extraction and the removal of
    the archive. *)
Lemma load_pretrain_data_ok (e : env) (url zip target : string)
    (entries : list string) (w : world) :
  remote e url = Some entries ->
  zip ≠ target -> (forall entry, target +:+ "/" +:+ entry ≠ zip) ->
  load_pretrain_data e url zip target w =
    (Ok target,
     World (delete zip (extracted target entries (<[zip := Archive entries]> (fs w))))
           (trace w ++ [Download url zip; ExtractAll zip target; Remove zip])
           (stdout w ++ [Msg "downloading pretrain data: "; Msg "unzipping pretrain data: ";
                         Msg "pretrain data unzipped."; Msg "removed zip file"])
           (logfile w)).
Proof.
  intros Hr Hzt Hent.
  unfold load_pretrain_data, gdown_download. rewrite Hr.
  unfold mbind, M_bind, mret, M_ret, print, emit, write_file, zip_extractall, os_remove.
  cbn [fs trace stdout logfile]. rewrite lookup_insert_eq.
  cbn [fs trace stdout logfile].
  rewrite extracted_other, lookup_insert_eq by auto.
  cbn [fs trace stdout logfile].
  rewrite <- !app_assoc. reflexivity.
Qed.

Lemma split_frame_refl (w : world) : split_frame w w.
Proof.
  split; [|auto]. exists []. split; [symmetry; apply app_nil_r|constructor].
Qed.

Lemma split_frame_trans (w1 w2 w3 : world) :
  split_frame w1 w2 -> split_frame w2 w3 -> split_frame w1 w3.
Proof.
  intros [(r1 & T1 & F1) Q1] [(r2 & T2 & F2) Q2]. split.
  - exists (r1 ++ r2). split; [rewrite T2, T1, app_assoc; reflexivity|].
    apply Forall_app; auto.
  - intros q Hq. rewrite Q2, Q1; auto.
Qed.

Lemma split_files_frame (files : list string) (d : string) (a b : Z) (w : world) :
  d ∈ ["pretrain_data/dataset_train"; "pretrain_data/dataset_validation";
       "pretrain_data/dataset_test"] ->
  split_frame w (split_files_for_training files d a b w).2.
Proof.
  intros Hd. unfold split_files_for_training, mbind, M_bind, emit, makedirs_exist_ok.
  cbn [fs trace stdout logfile].
  assert (Hev : Forall (fun ev => is_split_files ev = true) [SplitFiles files d a b])
    by (repeat constructor).
  destruct (fs w !! d) as [[]|]; cbn [snd write_file fs trace];
    (split; [eexists; split; [reflexivity|exact Hev]|]); intros q Hq; try reflexivity.
  apply lookup_insert_ne. intros ->. contradiction.
Qed.

Lemma split_pretrain_data_frame (e : env) (p : string) (max_len : Z) (w : world) :
  split_frame w (split_pretrain_data e p max_len w).2.
Proof.
  unfold split_pretrain_data, mbind at 1, M_bind at 1, lift.
  destruct (split_paths (glob_mid e p)) as [[[tr va] te]|err]; [|apply split_frame_refl].
  cbn [foldM]. unfold mbind, M_bind, mret, M_ret.
  pose proof (split_files_frame tr ("pretrain_data/dataset_" +:+ "train") max_len 2 w) as F1.
  destruct (split_files_for_training tr _ max_len 2 w) as [[[]|err] w1];
    cbn [snd] in *; [|apply F1; rewrite !elem_of_cons; auto].
  pose proof (split_files_frame va ("pretrain_data/dataset_" +:+ "validation") max_len 2 w1)
    as F2.
  destruct (split_files_for_training va _ max_len 2 w1) as [[[]|err] w2];
    cbn [snd] in *;
    [|eapply split_frame_trans; [apply F1|apply F2]; rewrite !elem_of_cons; auto].
  pose proof (split_files_frame te ("pretrain_data/dataset_" +:+ "test") max_len 2 w2) as F3.
  assert (split_frame w w2)
    by (eapply split_frame_trans; [apply F1|apply F2]; rewrite !elem_of_cons; auto).
  destruct (split_files_for_training te _ max_len 2 w2) as [[[]|err] w3];
    cbn [snd] in *;
    (eapply split_frame_trans; [eassumption|apply F3]; rewrite !elem_of_cons; auto).
Qed.

Lemma prepare_data_skipped (e : env) (w : world) :
  is_Some (fs w !! "midis") -> Pretrain.prepare_data e w = (Ok tt, w).
Proof.
  intros Hs. unfold Pretrain.prepare_data, mbind, M_bind, path_exists.
  rewrite bool_decide_eq_true_2 by exact Hs. reflexivity.
Qed.

End AcquireFacts.

(** C4. When [midis] exists, the data preparation of [main] changes nothing:
    no download, no extraction, no file written. When it does not exist and
    the download succeeds, the preparation downloads the archive once,
    extracts it once, with every entry of the archive placed under [midis],
    and removes the archive: the events it adds are one [Download], one
    [ExtractAll], one [Remove] and then only calls of the chunking routine,
    and no file [midis.zip] is left, whether or not the chunking succeeds. *)
Theorem acquisition_once_or_skipped (e : env) (w : world) :
  (is_Some (fs w !! "midis") -> Pretrain.prepare_data e w = (Ok tt, w))
  /\ (fs w !! "midis" = None ->
      forall entries, remote e Pretrain.pretrain_url = Some entries ->
      exists r w' rest,
        Pretrain.prepare_data e w = (r, w')
        /\ trace w' = trace w ++ [Download Pretrain.pretrain_url "midis.zip";
                                  ExtractAll "midis.zip" "midis";
                                  Remove "midis.zip"] ++ rest
        /\ Forall (fun ev => is_split_files ev = true) rest
        /\ length (filter (fun ev => is_download ev = true)
                     (drop (length (trace w)) (trace w'))) = 1%nat
        /\ length (filter (fun ev => is_extract ev = true)
                     (drop (length (trace w)) (trace w'))) = 1%nat
        /\ fs w' !! "midis.zip" = None
        /\ fs w' !! "midis" = Some Dir
        /\ forall entry, entry ∈ entries -> fs w' !! ("midis/" +:+ entry) = Some Blob).
Proof.
  unfold Pretrain.prepare_data, mbind at 1 3, M_bind at 1 3, path_exists. split.
  - intros Hs. rewrite bool_decide_eq_true_2 by exact Hs. reflexivity.
  - intros Hn entries Hr.
    rewrite bool_decide_eq_false_2 by (rewrite Hn; apply is_Some_None).
    cbn [negb].
    pose proof (AcquireFacts.load_pretrain_data_ok e Pretrain.pretrain_url
                  "midis.zip" "midis" entries w Hr) as Hl.
    rewrite (WorldFacts.bind_ok _ _ _ _ _ (Hl ltac:(done) ltac:(done))).
    set (w1 := World _ _ _ _).
    pose proof (AcquireFacts.split_pretrain_data_frame e "midis" 1024 w1) as Hf.
    destruct (Utils.split_pretrain_data e "midis" 1024 w1) as [r w'] eqn:Hsp.
    destruct Hf as [(rest & Ht & Hrest) Hq]. cbn [snd] in *.
    exists r, w', rest. split; [reflexivity|].
    assert (Htr : trace w' = trace w ++ [Download Pretrain.pretrain_url "midis.zip";
                                         ExtractAll "midis.zip" "midis";
                                         Remove "midis.zip"] ++ rest)
      by (rewrite Ht; subst w1; cbn [trace]; rewrite <- app_assoc; reflexivity).
    assert (Hnone : forall (f : event -> bool),
               (forall ev, is_split_files ev = true -> f ev = false) ->
               filter (fun ev => f ev = true) rest = []).
    { intros f Hf. clear Ht Htr. induction Hrest as [|ev rest Hev _ IH]; [reflexivity|].
      rewrite filter_cons_False; [exact IH|]. rewrite (Hf ev Hev). discriminate. }
    split; [exact Htr|]. split; [exact Hrest|].
    rewrite Htr, drop_app_length.
    split; [|split; [|split; [|split]]].
    + rewrite filter_app, Hnone by (intros []; cbn; congruence). reflexivity.
    + rewrite filter_app, Hnone by (intros []; cbn; congruence). reflexivity.
    + rewrite Hq by (rewrite !not_elem_of_cons; repeat split; [done..|apply not_elem_of_nil]).
      subst w1. cbn [fs]. apply lookup_delete_eq.
    + rewrite Hq by (rewrite !not_elem_of_cons; repeat split; [done..|apply not_elem_of_nil]).
      subst w1. cbn [fs]. rewrite lookup_delete_ne by done.
      apply AcquireFacts.extracted_target. done.
    + intros entry Hin.
      rewrite Hq by (rewrite !not_elem_of_cons; repeat split; [done..|apply not_elem_of_nil]).
      subst w1. cbn [fs]. rewrite lookup_delete_ne by done.
      apply (AcquireFacts.extracted_entry "midis"). exact Hin.
Qed.

Lemma acquisition_once_or_skipped_witness :
  is_Some (fs Sample.prepared !! "midis")
  /\ Pretrain.prepare_data (Sample.machine 1 []) Sample.prepared = (Ok tt, Sample.prepared)
  /\ fs Sample.empty_world !! "midis" = None
  /\ remote (Sample.machine 1 []) Pretrain.pretrain_url = Some ["a.mid"; "b.mid"; "c/d.mid"]
  /\ exists r w', Pretrain.prepare_data (Sample.machine 1 []) Sample.empty_world = (r, w')
                  /\ fs w' !! "midis.zip" = None
                  /\ fs w' !! "midis/c/d.mid" = Some Blob.
Proof.
  assert (H1 : is_Some (fs Sample.prepared !! "midis")) by (eexists; reflexivity).
  assert (H2 : fs Sample.empty_world !! "midis" = None) by reflexivity.
  assert (H3 : remote (Sample.machine 1 []) Pretrain.pretrain_url
               = Some ["a.mid"; "b.mid"; "c/d.mid"]) by reflexivity.
  split; [exact H1|]. split.
  { exact (proj1 (acquisition_once_or_skipped (Sample.machine 1 []) Sample.prepared) H1). }
  split; [exact H2|]. split; [exact H3|].
  destruct (proj2 (acquisition_once_or_skipped (Sample.machine 1 []) Sample.empty_world)
              H2 _ H3) as (r & w' & rest & Hp & _ & _ & _ & _ & Hz & _ & Hent).
  exists r, w'. split; [exact Hp|]. split; [exact Hz|].
  apply (Hent "c/d.mid"). rewrite !elem_of_cons. auto.
Defined.

(** ** The training loop *)

Module TrainFacts.
Import Pretrain.

Lemma eqb_0_bool_decide (x : Z) : (x =? 0) = bool_decide (x = 0).
Proof.
  destruct (Z.eqb_spec x 0) as [->|Hne].
  - symmetry. apply bool_decide_eq_true_2. reflexivity.
  - symmetry. apply bool_decide_eq_false_2. exact Hne.
Qed.

Lemma attn_mask_of_take (b : batch) :
  attn_mask_of b = (fun row => take (length row - 1) row) <$> attention_mask b.
Proof.
  unfold attn_mask_of. apply list_fmap_ext. intros i row _.
  apply PyListFacts.slice_drop_last.
Qed.

(** The world after one batch: one [Forward] event more, the same files. *)
Lemma train_batch_trace (e : env) (b : batch) (acc : train_state * PyFloat.pynum)
    (w : world) :
  trace (train_batch e b acc w).2
  = trace w ++ [Forward (decoder_input_of b) (tgt_key_padding_mask_of b)].
Proof.
  destruct acc as [st total]. unfold train_batch.
  destruct (train_step _ _ _ _ _ _) as [[p o] loss].
  unfold mbind, M_bind, mret, M_ret, emit, lift, logging_info.
  destruct (PyFloat.add_float total loss) as [t|err]; [|reflexivity].
  destruct (_ =? 0); [|reflexivity].
  destruct (PyFloat.div_int t (st_step st + 1)) as [a|err]; reflexivity.
Qed.

End TrainFacts.

(** C6. The mask that the trainer passes to the model with each batch is the
    attention mask without its last column, compared with 0 elementwise: it
    is true exactly at the positions where the shifted attention mask is 0,
    and it is false everywhere when the attention mask holds ones only. *)
Theorem padding_mask_marks_padding (e : env) (b : batch) (st : Pretrain.train_state)
    (total : PyFloat.pynum) (w : world) :
  let attn_mask := Pretrain.attn_mask_of b in
  let mask := Pretrain.tgt_key_padding_mask_of b in
  trace (Pretrain.train_batch e b (st, total) w).2
    = trace w ++ [Forward (Pretrain.decoder_input_of b) mask]
  /\ attn_mask = (fun row => take (length row - 1) row) <$> attention_mask b
  /\ (forall i j : nat,
        (mask !! i ≫= fun row => row !! j)
        = (fun x => bool_decide (x = 0)) <$> (attn_mask !! i ≫= fun row => row !! j))
  /\ (Forall (Forall (fun x => x = 1)) (attention_mask b) ->
      Forall (Forall (fun m => m = false)) mask).
Proof.
  intros attn_mask mask. split; [apply TrainFacts.train_batch_trace|].
  split; [apply TrainFacts.attn_mask_of_take|]. split.
  - intros i j. subst mask. unfold Pretrain.tgt_key_padding_mask_of. fold attn_mask.
    rewrite list_lookup_fmap. destruct (attn_mask !! i) as [row|]; [|reflexivity].
    cbn [fmap option_fmap option_map mbind option_bind].
    rewrite list_lookup_fmap. destruct (row !! j) as [x|]; [|reflexivity].
    cbn [fmap option_fmap option_map]. f_equal. apply TrainFacts.eqb_0_bool_decide.
  - intros Hones. subst mask. unfold Pretrain.tgt_key_padding_mask_of.
    rewrite TrainFacts.attn_mask_of_take.
    rewrite <- list_fmap_compose. apply Forall_fmap.
    eapply Forall_impl; [exact Hones|]. intros row Hrow. cbn.
    apply Forall_fmap. apply Forall_take.
    eapply Forall_impl; [exact Hrow|]. intros x ->. reflexivity.
Qed.

Lemma padding_mask_marks_padding_witness :
  Forall (Forall (fun x => x = 1)) (attention_mask Sample.unpadded)
  /\ Pretrain.tgt_key_padding_mask_of Sample.unpadded
     = [[false; false; false]; [false; false; false]]
  /\ Forall (Forall (fun m => m = false)) (Pretrain.tgt_key_padding_mask_of Sample.unpadded).
Proof.
  assert (H : Forall (Forall (fun x => x = 1)) (attention_mask Sample.unpadded))
    by (repeat constructor).
  split; [exact H|]. split; [reflexivity|].
  apply (padding_mask_marks_padding (Sample.machine 1 [])
           Sample.unpadded (Pretrain.TrainState (Pretrain.build_model (Sample.machine 1 []))
                              ∅ 0 None) (PyFloat.PInt 0) Sample.empty_world).
  exact H.
Defined.

Module LoopFacts.
Import Pretrain.

Lemma parameters_set_parameters (m : model) (p : state_dict) :
  parameters (set_parameters m p) = p.
Proof. induction m as [q|m IH]; cbn; auto. Qed.

Lemma set_parameters_twice (m : model) (p q : state_dict) :
  set_parameters (set_parameters m p) q = set_parameters m q.
Proof. induction m as [r|m IH]; cbn; [reflexivity|]. rewrite IH. reflexivity. Qed.

Lemma set_parameters_same (m : model) : set_parameters m (parameters m) = m.
Proof. induction m as [r|m IH]; cbn; [reflexivity|]. rewrite IH. reflexivity. Qed.

Lemma get_module_set_parameters (m : model) (p : state_dict) :
  get_module (set_parameters m p)
  = match get_module m with
    | Ok inner => Ok (set_parameters inner p)
    | Raise err => Raise err
    end.
Proof. destruct m; reflexivity. Qed.

Lemma add_float_total (ls : list spec_float) (x : spec_float) :
  PyFloat.add_float (total_after ls) x = Ok (total_after (ls ++ [x])).
Proof.
  destruct ls as [|y ls]; [reflexivity|].
  cbn [total_after app PyFloat.add_float]. unfold PyFloat.fsum.
  rewrite (foldl_app _ (y :: ls) [x]). reflexivity.
Qed.

Lemma div_int_float (y : spec_float) (n : Z) :
  1 <= n < 2 ^ 53 ->
  PyFloat.div_int (PyFloat.PFloat y) n = Ok (PyFloat.div y (PyFloat.round_int n)).
Proof.
  intros Hn. unfold PyFloat.div_int.
  replace (n =? 0) with false by (symmetry; apply Z.eqb_neq; lia).
  rewrite PyFloatFacts.of_int_ok by lia. reflexivity.
Qed.

Lemma omap_seq_shift {B : Type} (f g : nat -> option B) (n start : nat) :
  (forall j, f (S j) = g j) -> omap f (seq (S start) n) = omap g (seq start n).
Proof.
  intros Hfg. revert start. induction n as [|n IH]; intros start; [reflexivity|].
  cbn [seq omap list_omap]. rewrite Hfg, IH. reflexivity.
Qed.

Lemma step_logs_cons (s0 : Z) (prev ls : list spec_float) (x : spec_float) :
  step_logs s0 prev (x :: ls)
  = (if (s0 + 1) `mod` log_interval =? 0
     then [StepLoss (s0 + 1) (PyFloat.div (PyFloat.fsum (prev ++ [x]))
                                          (PyFloat.round_int (s0 + 1)))]
     else [])
    ++ step_logs (s0 + 1) (prev ++ [x]) ls.
Proof.
  unfold step_logs. cbn [length seq omap list_omap].
  rewrite (omap_seq_shift _ (step_log_line (s0 + 1) (prev ++ [x]) ls)).
  - unfold step_log_line at 1. cbn [take Z.of_nat Pos.of_succ_nat].
    destruct (_ =? 0); reflexivity.
  - intros j. unfold step_log_line.
    replace (s0 + Z.of_nat (S j)) with (s0 + 1 + Z.of_nat j) by lia.
    cbn [take]. rewrite <- app_assoc. reflexivity.
Qed.

Lemma last_loss_cons (old : option spec_float) (x : spec_float) (ls : list spec_float) :
  last_loss (Some x) ls = last_loss old (x :: ls).
Proof. unfold last_loss. rewrite last_cons. destruct (last ls); reflexivity. Qed.

(** One iteration of the batch loop, with [step] below 2^53. *)
Lemma train_batch_spec (e : env) (b : batch) (st : train_state)
    (prev : list spec_float) (w : world) :
  0 <= st_step st -> st_step st + 1 < 2 ^ 53 ->
  let po := (parameters (st_model st), st_optimizer st) in
  let r := step_of e b po in
  train_batch e b (st, total_after prev) w =
    (Ok (TrainState (set_parameters (st_model st) r.1.1) r.1.2 (st_step st + 1) (Some r.2),
         total_after (prev ++ [r.2])),
     World (fs w) (trace w ++ [Forward (decoder_input_of b) (tgt_key_padding_mask_of b)])
           (stdout w)
           (logfile w ++
              if (st_step st + 1) `mod` log_interval =? 0
              then [StepLoss (st_step st + 1)
                      (PyFloat.div (PyFloat.fsum (prev ++ [r.2]))
                                   (PyFloat.round_int (st_step st + 1)))]
              else [])).
Proof.
  intros H0 Hs po r. unfold train_batch. subst r po. unfold step_of. cbn [fst snd].
  destruct (train_step _ _ _ _ _ _) as [[p o] loss]. cbn [fst snd].
  unfold mbind, M_bind, mret, M_ret, emit, lift, logging_info.
  rewrite add_float_total.
  destruct (_ =? 0).
  - assert (Ht : total_after (prev ++ [loss]) = PyFloat.PFloat (PyFloat.fsum (prev ++ [loss])))
      by (destruct prev; reflexivity).
    rewrite Ht at 1. rewrite div_int_float by lia. cbn [fs trace stdout logfile].
    reflexivity.
  - cbn [fs trace stdout logfile]. rewrite app_nil_r. reflexivity.
Qed.

(** The whole batch loop, from any value of [step] and of [total_loss]. *)
Lemma train_batches_from (e : env) (bs : list batch) :
  forall (st : train_state) (prev : list spec_float) (w : world),
  0 <= st_step st -> st_step st + PyList.len bs < 2 ^ 53 ->
  let po := (parameters (st_model st), st_optimizer st) in
  let ls := losses e bs po in
  foldM (train_batch e) bs (st, total_after prev) w =
    (Ok (TrainState (set_parameters (st_model st) (after_batches e bs po).1)
                    (after_batches e bs po).2
                    (st_step st + PyList.len bs)
                    (last_loss (st_loss st) ls),
         total_after (prev ++ ls)),
     World (fs w) (trace w ++ forward_events bs) (stdout w)
           (logfile w ++ step_logs (st_step st) prev ls)).
Proof.
  induction bs as [|b bs IH]; intros st prev w H0 Hs po ls.
  - cbn [foldM]. subst ls po. cbn [losses after_batches fst snd forward_events fmap list_fmap].
    unfold step_logs, last_loss, PyList.len. cbn [length seq omap list_omap last Z.of_nat].
    rewrite set_parameters_same, Z.add_0_r, !app_nil_r.
    destruct st, w; reflexivity.
  - assert (Hlen : PyList.len (b :: bs) = 1 + PyList.len bs)
      by (unfold PyList.len; cbn [length]; lia).
    pose proof (PyListFacts.len_nonneg bs) as Hnn.
    cbn [foldM].
    rewrite (WorldFacts.bind_ok _ _ _ _ _
               (train_batch_spec e b st prev w H0 ltac:(lia))).
    fold po. set (r := step_of e b po).
    rewrite IH by (cbn [st_step]; lia).
    cbn [st_model st_optimizer st_step st_loss fs trace stdout logfile].
    rewrite parameters_set_parameters, set_parameters_twice.
    assert (Hr : r.1 = (r.1.1, r.1.2)) by (destruct r as [[? ?] ?]; reflexivity).
    rewrite <- Hr. subst ls. cbn [losses after_batches forward_events fmap list_fmap].
    fold r. rewrite (step_logs_cons (st_step st)).
    rewrite <- (last_loss_cons (st_loss st)).
    rewrite <- !app_assoc. cbn [app].
    rewrite Hlen, Z.add_assoc. reflexivity.
Qed.

End LoopFacts.

Module EpochFacts.
Import Pretrain LoopFacts.

Lemma length_losses (e : env) (bs : list batch) (po : state_dict * state_dict) :
  length (losses e bs po) = length bs.
Proof.
  revert po. induction bs as [|b bs IH]; intros po; cbn [losses length]; [reflexivity|].
  rewrite IH. reflexivity.
Qed.

Lemma last_loss_nonempty (old : option spec_float) (ls : list spec_float) :
  ls ≠ [] -> exists l, last_loss old ls = Some l.
Proof.
  intros Hne. unfold last_loss. destruct (last ls) as [l|] eqn:Hl; [eauto|].
  apply last_None in Hl. contradiction.
Qed.

(** The batch loop of an epoch, which starts from [total_loss = 0]. *)
Lemma train_batches_spec (e : env) (st : train_state) (w : world) :
  0 <= st_step st -> st_step st + PyList.len (data_loader e) < 2 ^ 53 ->
  let po := (parameters (st_model st), st_optimizer st) in
  train_batches e st w =
    (Ok (state_after_epoch e st, total_after (losses e (data_loader e) po)),
     World (fs w) (trace w ++ forward_events (data_loader e)) (stdout w)
           (logfile w ++ step_logs (st_step st) [] (losses e (data_loader e) po))).
Proof.
  intros H0 Hs po. unfold train_batches.
  exact (train_batches_from e (data_loader e) st [] w H0 Hs).
Qed.

(** An epoch up to its checkpoint step. *)
Lemma train_epoch_spec (e : env) (epoch : Z) (st : train_state) (w : world) :
  0 <= st_step st -> 1 <= PyList.len (data_loader e) ->
  st_step st + PyList.len (data_loader e) < 2 ^ 53 ->
  train_epoch e epoch st w =
    if save_due epoch
    then (save_checkpoint (state_after_epoch e st) epoch ≫= fun _ => mret (state_after_epoch e st))
           (world_after_batches e epoch st w)
    else (Ok (state_after_epoch e st), world_after_batches e epoch st w).
Proof.
  intros H0 H1 Hs. unfold train_epoch.
  rewrite (WorldFacts.bind_ok _ _ _ _ _ (train_batches_spec e st w H0 Hs)).
  set (po := (parameters (st_model st), st_optimizer st)).
  assert (Hne : losses e (data_loader e) po ≠ []).
  { intros Hnil. pose proof (length_losses e (data_loader e) po) as Hl.
    rewrite Hnil in Hl. unfold PyList.len in H1. cbn [length] in Hl. lia. }
  assert (Ht : total_after (losses e (data_loader e) po)
               = PyFloat.PFloat (PyFloat.fsum (losses e (data_loader e) po)))
    by (destruct (losses e (data_loader e) po); [contradiction|reflexivity]).
  rewrite Ht.
  unfold mbind at 1, M_bind at 1, lift at 1. rewrite div_int_float by lia.
  unfold mbind at 1 2, M_bind at 1 2, print, logging_info.
  cbn [fs trace stdout logfile].
  fold po. fold (epoch_loss_line e epoch st). rewrite <- app_assoc.
  fold (world_after_batches e epoch st w).
  destruct (save_due epoch); reflexivity.
Qed.

Lemma save_checkpoint_wrapped (st : train_state) (inner : model) (l : spec_float)
    (epoch : Z) (w : world) :
  st_model st = DataParallel inner -> st_loss st = Some l ->
  save_checkpoint st epoch w =
    (Ok tt,
     World (<[epoch_checkpoint_path epoch :=
                Pickle (checkpoint_record epoch (parameters inner) (st_optimizer st) l)]>
              (fs w))
           (trace w ++ [Save (epoch_checkpoint_path epoch)])
           (stdout w ++ [Msg ("Saved checkpoint: " +:+ epoch_checkpoint_path epoch)])
           (logfile w)).
Proof. intros Hm Hl. unfold save_checkpoint. rewrite Hm, Hl. reflexivity. Qed.

Lemma save_checkpoint_unwrapped (st : train_state) (err : exn) (epoch : Z) (w : world) :
  get_module (st_model st) = Raise err -> save_checkpoint st epoch w = (Raise err, w).
Proof. intros Hm. unfold save_checkpoint. rewrite Hm. reflexivity. Qed.

Lemma checkpoint_record_keys (epoch : Z) (sd osd : state_dict) (l : spec_float) :
  dom (checkpoint_record epoch sd osd l)
  = ({["epoch"; "model_state_dict"; "optimizer_state_dict"; "loss"]} : gset string).
Proof. unfold checkpoint_record. rewrite !dom_insert_L, dom_empty_L. set_solver. Qed.

(** A pass over the loader adds its length to [step], whatever else
    happens, as long as it does not raise. *)
Lemma train_batches_step (e : env) (bs : list batch) :
  forall st total w st' total' w',
  foldM (train_batch e) bs (st, total) w = (Ok (st', total'), w') ->
  st_step st' = st_step st + PyList.len bs.
Proof.
  induction bs as [|b bs IH]; intros st total w st' total' w' H.
  - cbn [foldM] in H. injection H as <- _ _. unfold PyList.len. cbn [length]. lia.
  - cbn [foldM] in H. unfold mbind at 1, M_bind at 1 in H.
    destruct (train_batch e b (st, total) w) as [[[st1 t1]|err] w1] eqn:Hb;
      [|discriminate].
    apply IH in H. rewrite H.
    assert (st_step st1 = st_step st + 1).
    { unfold train_batch in Hb.
      destruct (train_step _ _ _ _ _ _) as [[p o] loss].
      unfold mbind, M_bind, mret, M_ret, emit, lift, logging_info in Hb.
      destruct (PyFloat.add_float total loss) as [t|]; [|discriminate].
      destruct (_ =? 0).
      - destruct (PyFloat.div_int t (st_step st + 1)); [|discriminate].
        injection Hb as <- _ _. reflexivity.
      - injection Hb as <- _ _. reflexivity. }
    unfold PyList.len. cbn [length]. lia.
Qed.

Lemma train_epoch_step (e : env) (epoch : Z) (st st' : train_state) (w w' : world) :
  train_epoch e epoch st w = (Ok st', w') ->
  st_step st' = st_step st + PyList.len (data_loader e).
Proof.
  unfold train_epoch, train_batches. intros H.
  unfold mbind at 1, M_bind at 1 in H.
  destruct (foldM _ _ _ w) as [[[st1 t1]|err] w1] eqn:Hb; [|discriminate].
  apply train_batches_step in Hb. rewrite <- Hb.
  unfold mbind, M_bind, mret, M_ret, lift, print, logging_info in H.
  destruct (PyFloat.div_int t1 _); [|discriminate].
  destruct (save_due epoch).
  - destruct (save_checkpoint st1 epoch _) as [[[]|] w2]; [|discriminate].
    injection H as <- _. reflexivity.
  - injection H as <- _. reflexivity.
Qed.

Lemma train_epochs_step (e : env) (epochs : list Z) :
  forall st w st' w',
  foldM (train_epoch e) epochs st w = (Ok st', w') ->
  st_step st' = st_step st + PyList.len epochs * PyList.len (data_loader e).
Proof.
  induction epochs as [|epoch epochs IH]; intros st w st' w' H.
  - cbn [foldM] in H. injection H as <- _. unfold PyList.len at 1. cbn [length]. lia.
  - cbn [foldM] in H. unfold mbind at 1, M_bind at 1 in H.
    destruct (train_epoch e epoch st w) as [[st1|err] w1] eqn:He; [|discriminate].
    apply train_epoch_step in He. apply IH in H. rewrite H, He.
    assert (Hlen : PyList.len (epoch :: epochs) = 1 + PyList.len epochs)
      by (unfold PyList.len; cbn [length]; lia).
    rewrite Hlen. lia.
Qed.

End EpochFacts.

(** C7. In every epoch the batch loop starts again from [total_loss = 0]
    and carries on from the value of [step] that it is entered with: after
    the loop [step] has grown by the number of batches, [total_loss] is the
    sum of the losses of this epoch alone, and the lines logged are, for each
    batch [j] of the epoch whose global step [s0 + j] is a multiple of 500,
    the sum of the first [j] losses of the epoch divided by [s0 + j]. Over
    any number of epochs that complete, [step] grows by the number of epochs
    times the number of batches: it is never reset. *)
Theorem running_average_over_global_step (e : env) (st : Pretrain.train_state)
    (w : world) :
  let s0 := Pretrain.st_step st in
  let ls := Pretrain.losses e (data_loader e)
              (Pretrain.parameters (Pretrain.st_model st), Pretrain.st_optimizer st) in
  0 <= s0 -> s0 + PyList.len (data_loader e) < 2 ^ 53 ->
  exists st' w',
    Pretrain.train_batches e st w = (Ok (st', Pretrain.total_after ls), w')
    /\ Pretrain.st_step st' = s0 + PyList.len (data_loader e)
    /\ logfile w' = logfile w ++ Pretrain.step_logs s0 [] ls
    /\ (forall m, m ∈ Pretrain.step_logs s0 [] ls <->
          exists j : nat,
            (1 <= j <= length (data_loader e))%nat
            /\ (s0 + Z.of_nat j) `mod` 500 = 0
            /\ m = StepLoss (s0 + Z.of_nat j)
                     (PyFloat.div (PyFloat.fsum (take j ls))
                                  (PyFloat.round_int (s0 + Z.of_nat j))))
    /\ (forall epochs st'' w'',
          foldM (Pretrain.train_epoch e) epochs st w = (Ok st'', w'') ->
          Pretrain.st_step st''
          = s0 + PyList.len epochs * PyList.len (data_loader e)).
Proof.
  intros s0 ls H0 Hs. eexists _, _.
  split; [exact (EpochFacts.train_batches_spec e st w H0 Hs)|].
  split; [reflexivity|]. split; [reflexivity|]. split.
  - intros m. unfold Pretrain.step_logs. rewrite list_elem_of_omap.
    subst ls. rewrite EpochFacts.length_losses.
    split.
    + intros (j & Hj & Hm). apply elem_of_seq in Hj.
      unfold Pretrain.step_log_line, Pretrain.log_interval in Hm. cbn [app] in Hm.
      destruct (Z.eqb_spec ((s0 + Z.of_nat j) `mod` 500) 0) as [Hz|Hz]; [|discriminate].
      injection Hm as <-. exists j. repeat split; [lia|lia|exact Hz].
    + intros (j & Hj & Hz & ->). exists j. split; [apply elem_of_seq; lia|].
      unfold Pretrain.step_log_line, Pretrain.log_interval. cbn [app].
      fold s0. rewrite Hz. reflexivity.
  - intros epochs st'' w'' H. exact (EpochFacts.train_epochs_step e epochs _ _ _ _ H).
Qed.

Lemma running_average_over_global_step_witness :
  let e := Sample.machine 2 (replicate 50 Sample.padded) in
  let st := Pretrain.TrainState (Pretrain.build_model e) ∅ 450 None in
  0 <= Pretrain.st_step st
  /\ Pretrain.st_step st + PyList.len (data_loader e) < 2 ^ 53
  /\ exists st' total w',
       Pretrain.train_batches e st Sample.prepared = (Ok (st', total), w')
       /\ Pretrain.st_step st' = 500
       /\ logfile w' = [StepLoss 500 PyFloat.f0_1].
Proof.
  intros e st.
  assert (H0 : 0 <= Pretrain.st_step st) by (vm_compute; discriminate).
  assert (Hs : Pretrain.st_step st + PyList.len (data_loader e) < 2 ^ 53)
    by (vm_compute; reflexivity).
  split; [exact H0|]. split; [exact Hs|].
  destruct (running_average_over_global_step e st Sample.prepared H0 Hs)
    as (st' & w' & Hrun & Hstep & Hlog & _).
  eexists st', _, w'. split; [exact Hrun|]. split.
  - rewrite Hstep. vm_compute. reflexivity.
  - rewrite Hlog. vm_compute. reflexivity.
Defined.

(** ** Resuming, saving and the [module] attribute *)

Module ResumeFacts.
Import Pretrain LoopFacts EpochFacts.

Lemma build_model_unwrapped (e : env) :
  cuda_device_count e <= 1 -> build_model e = MidiDecoderOnlyModel (initial_params e).
Proof.
  intros Hc. unfold build_model.
  replace (1 <? cuda_device_count e) with false by (symmetry; apply Z.ltb_ge; lia).
  reflexivity.
Qed.

Lemma build_model_wrapped (e : env) :
  1 < cuda_device_count e ->
  build_model e = DataParallel (MidiDecoderOnlyModel (initial_params e)).
Proof.
  intros Hc. unfold build_model.
  replace (1 <? cuda_device_count e) with true by (symmetry; apply Z.ltb_lt; lia).
  reflexivity.
Qed.

Lemma resume_absent (m : model) (o : state_dict) (w : world) :
  fs w !! checkpoint_path = None -> resume m o w = (Ok (m, o, 0), w).
Proof.
  intros Hn. unfold resume, mbind, M_bind, path_exists.
  rewrite bool_decide_eq_false_2 by (rewrite Hn; apply is_Some_None). reflexivity.
Qed.

Lemma resume_unwrapped (m : model) (o : state_dict) (w : world)
    (obj : gmap string pyval) (err : exn) :
  fs w !! checkpoint_path = Some (Pickle obj) -> get_module m = Raise err ->
  resume m o w = (Raise err, w).
Proof.
  intros Hf Hm. unfold resume, mbind at 1, M_bind at 1, path_exists.
  rewrite bool_decide_eq_true_2 by (rewrite Hf; eauto).
  unfold mbind at 1, M_bind at 1, torch_load. rewrite Hf.
  apply WorldFacts.bind_raise. unfold lift. rewrite Hm. reflexivity.
Qed.

(** With a wrapped model, a well-formed checkpoint at the fixed path is
    loaded and training starts at the epoch after the recorded one. *)
Lemma resume_wrapped (inner : model) (o : state_dict) (w : world)
    (obj : gmap string pyval) (sd osd : state_dict) (k : Z) :
  fs w !! checkpoint_path = Some (Pickle obj) ->
  obj !! "model_state_dict" = Some (VState sd) ->
  obj !! "optimizer_state_dict" = Some (VState osd) ->
  obj !! "epoch" = Some (VInt k) ->
  resume (DataParallel inner) o w =
    (Ok (DataParallel (set_parameters inner sd), osd, k + 1),
     World (fs w) (trace w)
           (stdout w ++ [Msg ("Loaded checkpoint from epoch " +:+ pretty k)])
           (logfile w ++ [Msg ("Resumed training from checkpoint: epoch " +:+ pretty k)])).
Proof.
  intros Hf Hsd Hosd Hk. unfold resume, mbind at 1, M_bind at 1, path_exists.
  rewrite bool_decide_eq_true_2 by (rewrite Hf; eauto).
  unfold mbind at 1, M_bind at 1, torch_load. rewrite Hf.
  unfold mbind, M_bind, result_bind, lift, dict_get, mret, M_ret, print, logging_info.
  rewrite Hsd, Hosd, Hk. reflexivity.
Qed.

(** The epochs of the loop are those from [start_epoch] up to 19. *)
Lemma train_epochs_range (start_epoch epoch : Z) :
  epoch ∈ PyList.range start_epoch num_epochs <-> start_epoch <= epoch < 20.
Proof. unfold PyList.range, num_epochs. rewrite elem_of_seqZ. lia. Qed.

(** The first steps of [main] on a disk where the corpus is prepared. *)
Lemma main_prepared (e : env) (w : world) :
  dir_or_free w "pretrain_checkpoints" -> is_Some (fs w !! "midis") ->
  exists d,
    (forall q, q ≠ "pretrain_checkpoints" -> d !! q = fs w !! q)
    /\ main e w =
       ('(model, optimizer, start_epoch) ← resume (build_model e) (initial_opt e);
        train e model optimizer start_epoch;; mret tt)
         (World d (trace w) (stdout w) (logfile w)).
Proof.
  intros Hd Hm. destruct (WorldFacts.makedirs_ok w _ Hd) as (d & Hmk & _ & Hq).
  exists d. split; [exact Hq|]. unfold main.
  rewrite (WorldFacts.bind_ok _ _ _ _ _ Hmk).
  assert (Hm' : is_Some (fs (World d (trace w) (stdout w) (logfile w)) !! "midis"))
    by (cbn [fs]; rewrite Hq by done; exact Hm).
  rewrite (WorldFacts.bind_ok _ _ _ _ _ (AcquireFacts.prepare_data_skipped e _ Hm')).
  reflexivity.
Qed.

(** Resuming with an unwrapped model aborts [main] before anything is
    loaded, printed or trained. *)
Lemma main_resume_unwrapped (e : env) (w : world) (obj : gmap string pyval) :
  cuda_device_count e <= 1 ->
  dir_or_free w "pretrain_checkpoints" -> is_Some (fs w !! "midis") ->
  fs w !! checkpoint_path = Some (Pickle obj) ->
  exists d,
    (forall q, q ≠ "pretrain_checkpoints" -> d !! q = fs w !! q)
    /\ main e w = (Raise (AttributeError "module"),
                   World d (trace w) (stdout w) (logfile w)).
Proof.
  intros Hc Hd Hm Hf. destruct (main_prepared e w Hd Hm) as (d & Hq & Hmain).
  exists d. split; [exact Hq|]. rewrite Hmain.
  apply WorldFacts.bind_raise. apply (resume_unwrapped _ _ _ obj).
  - cbn [fs]. rewrite Hq by done. exact Hf.
  - rewrite build_model_unwrapped by exact Hc. reflexivity.
Qed.

(** Without a checkpoint to resume from, an unwrapped model is trained for
    the epochs 0, 1 and 2 and [main] aborts at the first save. *)
Lemma main_save_unwrapped (e : env) (w : world) :
  cuda_device_count e <= 1 ->
  dir_or_free w "pretrain_checkpoints" -> is_Some (fs w !! "midis") ->
  fs w !! checkpoint_path = None ->
  1 <= PyList.len (data_loader e) -> 3 * PyList.len (data_loader e) < 2 ^ 53 ->
  exists d out log,
    (forall q, q ≠ "pretrain_checkpoints" -> d !! q = fs w !! q)
    /\ length out = 3%nat
    /\ main e w =
       (Raise (AttributeError "module"),
        World d
          (trace w ++ forward_events (data_loader e) ++ forward_events (data_loader e)
                   ++ forward_events (data_loader e))
          (stdout w ++ out)
          (logfile w ++ log)).
Proof.
  intros Hc Hd Hm Hf H1 H3. destruct (main_prepared e w Hd Hm) as (d & Hq & Hmain).
  rewrite Hmain. set (w0 := World d _ _ _).
  assert (Hf' : fs w0 !! checkpoint_path = None)
    by (subst w0; cbn [fs]; rewrite Hq by done; exact Hf).
  rewrite (WorldFacts.bind_ok _ _ _ _ _ (resume_absent _ _ w0 Hf')).
  rewrite build_model_unwrapped by exact Hc.
  unfold train. change (PyList.range 0 num_epochs) with (0 :: 1 :: 2 :: PyList.range 3 num_epochs).
  set (st0 := TrainState _ _ 0 None).
  set (B := PyList.len (data_loader e)) in *.
  assert (E0 : train_epoch e 0 st0 w0
               = (Ok (state_after_epoch e st0), world_after_batches e 0 st0 w0))
    by (rewrite train_epoch_spec by (unfold st0; cbn [st_step]; fold B; lia); reflexivity).
  set (st1 := state_after_epoch e st0) in *. set (w1 := world_after_batches e 0 st0 w0) in *.
  assert (S1 : st_step st1 = B) by (unfold st1, st0, state_after_epoch; cbn [st_step]; fold B; lia).
  assert (E1 : train_epoch e 1 st1 w1
               = (Ok (state_after_epoch e st1), world_after_batches e 1 st1 w1))
    by (rewrite train_epoch_spec by (rewrite ?S1; fold B; lia); reflexivity).
  set (st2 := state_after_epoch e st1) in *. set (w2 := world_after_batches e 1 st1 w1) in *.
  assert (S2 : st_step st2 = B + B)
    by (unfold st2, state_after_epoch; cbn [st_step]; rewrite S1; fold B; lia).
  assert (E2 : train_epoch e 2 st2 w2
               = (Raise (AttributeError "module"), world_after_batches e 2 st2 w2)).
  { rewrite train_epoch_spec by (rewrite ?S2; fold B; lia).
    change (save_due 2) with true. cbv iota.
    apply WorldFacts.bind_raise, save_checkpoint_unwrapped. reflexivity. }
  exists d, [epoch_loss_line e 0 st0; epoch_loss_line e 1 st1; epoch_loss_line e 2 st2],
    (step_logs 0 [] (losses e (data_loader e) (parameters (st_model st0), st_optimizer st0))
     ++ epoch_loss_line e 0 st0
     :: step_logs B [] (losses e (data_loader e) (parameters (st_model st1), st_optimizer st1))
     ++ epoch_loss_line e 1 st1
     :: step_logs (B + B) [] (losses e (data_loader e)
                                (parameters (st_model st2), st_optimizer st2))
     ++ [epoch_loss_line e 2 st2]).
  split; [exact Hq|]. split; [reflexivity|].
  apply WorldFacts.bind_raise. cbn [foldM].
  rewrite (WorldFacts.bind_ok _ _ _ _ _ E0), (WorldFacts.bind_ok _ _ _ _ _ E1).
  rewrite (WorldFacts.bind_raise _ _ _ _ _ E2).
  f_equal. subst w2 w1 w0. unfold world_after_batches.
  cbn [fs trace stdout logfile]. rewrite S1, S2.
  f_equal; rewrite <- ?app_assoc; reflexivity.
Qed.

End ResumeFacts.

Module CheckpointFacts.
Import Pretrain LoopFacts EpochFacts.

Lemma save_due_spec (epoch : Z) :
  save_due epoch = true <-> epoch `mod` 2 = 0 /\ epoch ≠ 0.
Proof.
  unfold save_due, save_every. rewrite andb_true_iff, negb_true_iff, Z.eqb_eq, Z.eqb_neq.
  reflexivity.
Qed.

(** With a wrapped model, an epoch ends with a checkpoint exactly when it is
    due; the record has the four keys and is stored under the name of the
    epoch, and no file is removed. *)
Lemma train_epoch_wrapped (e : env) (epoch : Z) (st : train_state) (inner : model)
    (w : world) :
  st_model st = DataParallel inner ->
  0 <= st_step st -> 1 <= PyList.len (data_loader e) ->
  st_step st + PyList.len (data_loader e) < 2 ^ 53 ->
  exists w',
    train_epoch e epoch st w = (Ok (state_after_epoch e st), w')
    /\ (save_due epoch = true ->
        exists record,
          fs w' = <[epoch_checkpoint_path epoch := Pickle record]> (fs w)
          /\ dom record
             = ({["epoch"; "model_state_dict"; "optimizer_state_dict"; "loss"]} : gset string)
          /\ record !! "epoch" = Some (VInt epoch)
          /\ trace w' = trace w ++ forward_events (data_loader e)
                                ++ [Save (epoch_checkpoint_path epoch)])
    /\ (save_due epoch = false ->
        fs w' = fs w /\ trace w' = trace w ++ forward_events (data_loader e))
    /\ (forall p, is_Some (fs w !! p) -> is_Some (fs w' !! p)).
Proof.
  intros Hm H0 H1 Hs. rewrite train_epoch_spec by assumption.
  set (po := (parameters (st_model st), st_optimizer st)).
  assert (Hne : losses e (data_loader e) po ≠ []).
  { intros Hnil. pose proof (length_losses e (data_loader e) po) as Hl.
    rewrite Hnil in Hl. unfold PyList.len in H1. cbn [length] in Hl. lia. }
  destruct (last_loss_nonempty (st_loss st) _ Hne) as (l & Hl).
  assert (Hmod : st_model (state_after_epoch e st)
                 = DataParallel (set_parameters inner (after_batches e (data_loader e) po).1)).
  { unfold state_after_epoch. cbn [st_model]. fold po. rewrite Hm. reflexivity. }
  destruct (save_due epoch) eqn:Hdue.
  - rewrite (WorldFacts.bind_ok _ _ _ _ _
               (save_checkpoint_wrapped (state_after_epoch e st) _ l epoch
                  (world_after_batches e epoch st w) Hmod Hl)).
    eexists. split; [reflexivity|]. cbn [fs trace world_after_batches].
    split; [|split; [discriminate|]].
    + intros _. eexists. split; [reflexivity|]. split; [apply checkpoint_record_keys|].
      split; [reflexivity|]. rewrite <- app_assoc. reflexivity.
    + intros p Hp. destruct (decide (epoch_checkpoint_path epoch = p)) as [<-|Hne'].
      * rewrite lookup_insert_eq. eauto.
      * rewrite lookup_insert_ne by exact Hne'. exact Hp.
  - eexists. split; [reflexivity|]. cbn [fs trace world_after_batches].
    split; [discriminate|]. split; [auto|]. auto.
Qed.

End CheckpointFacts.

(** C9. The model has a [module] attribute exactly when more than one
    accelerator is visible. With at most one, resuming from an existing
    checkpoint file raises [AttributeError] before anything is loaded,
    saving a checkpoint raises [AttributeError] before anything is written,
    and [main] aborts on either: at start-up when the checkpoint file
    exists, and otherwise at the end of epoch 2, the first epoch whose
    checkpoint is due, after three passes over the loader. *)
Theorem module_attribute_needs_data_parallel (e : env) (w : world) :
  ((exists inner, Pretrain.get_module (Pretrain.build_model e) = Ok inner)
   <-> 1 < cuda_device_count e)
  /\ (cuda_device_count e <= 1 ->
      (forall o obj,
         fs w !! Pretrain.checkpoint_path = Some (Pickle obj) ->
         Pretrain.resume (Pretrain.build_model e) o w = (Raise (AttributeError "module"), w))
      /\ (forall st epoch p,
            Pretrain.st_model st = Pretrain.set_parameters (Pretrain.build_model e) p ->
            Pretrain.save_checkpoint st epoch w = (Raise (AttributeError "module"), w))
      /\ (dir_or_free w "pretrain_checkpoints" -> is_Some (fs w !! "midis") ->
          (forall obj,
             fs w !! Pretrain.checkpoint_path = Some (Pickle obj) ->
             exists w', Pretrain.main e w = (Raise (AttributeError "module"), w')
                        /\ trace w' = trace w)
          /\ (fs w !! Pretrain.checkpoint_path = None ->
              1 <= PyList.len (data_loader e) ->
              3 * PyList.len (data_loader e) < 2 ^ 53 ->
              exists w', Pretrain.main e w = (Raise (AttributeError "module"), w')
                         /\ trace w' = trace w ++ Pretrain.forward_events (data_loader e)
                                               ++ Pretrain.forward_events (data_loader e)
                                               ++ Pretrain.forward_events (data_loader e)))).
Proof.
  split.
  - destruct (Z.ltb_spec 1 (cuda_device_count e)) as [Hlt|Hge].
    + rewrite ResumeFacts.build_model_wrapped by exact Hlt. split; [auto|]. eauto.
    + rewrite ResumeFacts.build_model_unwrapped by exact Hge.
      split; [intros (inner & Hi); discriminate|lia].
  - intros Hc. rewrite ResumeFacts.build_model_unwrapped by exact Hc.
    split; [|split].
    + intros o obj Hf. apply (ResumeFacts.resume_unwrapped _ _ _ obj); [exact Hf|reflexivity].
    + intros st epoch p Hst. apply EpochFacts.save_checkpoint_unwrapped.
      rewrite Hst. reflexivity.
    + intros Hd Hm. split.
      * intros obj Hf.
        destruct (ResumeFacts.main_resume_unwrapped e w obj Hc Hd Hm Hf) as (d & _ & Hmain).
        eexists. split; [exact Hmain|reflexivity].
      * intros Hf H1 H3.
        destruct (ResumeFacts.main_save_unwrapped e w Hc Hd Hm Hf H1 H3)
          as (d & out & log & _ & _ & Hmain).
        eexists. split; [exact Hmain|reflexivity].
Qed.

Lemma module_attribute_needs_data_parallel_witness :
  let e := Sample.machine 1 [Sample.padded] in
  cuda_device_count e <= 1
  /\ Pretrain.resume (Pretrain.build_model e) (initial_opt e) Sample.resumable
     = (Raise (AttributeError "module"), Sample.resumable)
  /\ dir_or_free Sample.prepared "pretrain_checkpoints"
  /\ is_Some (fs Sample.prepared !! "midis")
  /\ fs Sample.prepared !! Pretrain.checkpoint_path = None
  /\ 1 <= PyList.len (data_loader e)
  /\ 3 * PyList.len (data_loader e) < 2 ^ 53
  /\ exists w', Pretrain.main e Sample.prepared = (Raise (AttributeError "module"), w').
Proof.
  intros e.
  assert (Hc : cuda_device_count e <= 1) by (vm_compute; discriminate).
  assert (Hd : dir_or_free Sample.prepared "pretrain_checkpoints") by (right; reflexivity).
  assert (Hm : is_Some (fs Sample.prepared !! "midis")) by (eexists; reflexivity).
  assert (Hf : fs Sample.prepared !! Pretrain.checkpoint_path = None) by reflexivity.
  assert (H1 : 1 <= PyList.len (data_loader e)) by (vm_compute; discriminate).
  assert (H3 : 3 * PyList.len (data_loader e) < 2 ^ 53) by (vm_compute; reflexivity).
  split; [exact Hc|]. split.
  { destruct (module_attribute_needs_data_parallel e Sample.resumable) as [_ Hun].
    destruct (Hun Hc) as (Hres & _ & _).
    apply (Hres _ Sample.saved_checkpoint). reflexivity. }
  split; [exact Hd|]. split; [exact Hm|]. split; [exact Hf|].
  split; [exact H1|]. split; [exact H3|].
  destruct (module_attribute_needs_data_parallel e Sample.prepared) as [_ Hun].
  destruct (Hun Hc) as (_ & _ & Hmain).
  destruct (Hmain Hd Hm) as [_ Hsave].
  destruct (Hsave Hf H1 H3) as (w' & Hw & _). exists w'. exact Hw.
Defined.

(** C2, on a machine with one accelerator. The disk holds the prepared
    corpus and a checkpoint of epoch 4 at the fixed path: [main] raises
    [AttributeError] at [model.module] and leaves the world as it found it,
    with nothing loaded, [start_epoch] never set to 5 and no epoch run. On
    the same disk with two accelerators [main] resumes and its first epoch
    is epoch 5, logged as "Epoch 6". *)
Theorem resume_aborts_on_single_accelerator :
  Pretrain.main (Sample.machine 1 [Sample.padded]) Sample.resumable
  = (Raise (AttributeError "module"), Sample.resumable)
  /\ (let '(r, w') := Pretrain.main (Sample.machine 2 [Sample.padded]) Sample.resumable in
      r = Ok tt
      /\ take 2 (logfile w') = [Msg "Resumed training from checkpoint: epoch 4";
                                EpochLoss 6 Sample.one]).
Proof. split; vm_compute; [reflexivity|split; reflexivity]. Qed.

(** C3, on a machine with one accelerator. Starting from the prepared disk,
    [main] completes the epochs 0, 1 and 2; the checkpoint of epoch 2 is due
    but [model.module] raises [AttributeError] before it is written: no
    [Save] event occurs and the files are those of the start. With two
    accelerators the same run saves the checkpoints of the epochs 2, 4, ...,
    18. *)
Theorem checkpoint_lost_on_single_accelerator :
  Pretrain.save_due 2 = true
  /\ (let '(r, w') := Pretrain.main (Sample.machine 1 [Sample.padded]) Sample.prepared in
      r = Raise (AttributeError "module")
      /\ logfile w' = [EpochLoss 1 Sample.one; EpochLoss 2 Sample.one; EpochLoss 3 Sample.one]
      /\ filter (fun ev => is_save ev = true) (trace w') = []
      /\ (map_to_list (fs w')).*1 = ["midis"; "pretrain_checkpoints"]
      /\ fs w' !! Pretrain.epoch_checkpoint_path 2 = None)
  /\ (let '(r, w') := Pretrain.main (Sample.machine 2 [Sample.padded]) Sample.prepared in
      r = Ok tt
      /\ filter (fun ev => is_save ev = true) (trace w')
         = (fun epoch => Save (Pretrain.epoch_checkpoint_path epoch))
             <$> [2; 4; 6; 8; 10; 12; 14; 16; 18]).
Proof.
  split; [reflexivity|].
  split; vm_compute; repeat (split; [reflexivity|]); reflexivity.
Qed.

(** ** Strings *)

Module StringFacts.

Lemma length_app (a b : string) :
  String.length (a +:+ b) = (String.length a + String.length b)%nat.
Proof. induction a as [|c a IH]; simpl; [reflexivity|]. f_equal. exact IH. Qed.

(** A common suffix can be cancelled. *)
Lemma app_inv_tail (a b s : string) : a +:+ s = b +:+ s -> a = b.
Proof.
  revert b. induction a as [|c a IH]; intros [|c' b] H.
  - reflexivity.
  - apply (f_equal String.length) in H. rewrite !length_app in H.
    cbn [String.length] in H. lia.
  - apply (f_equal String.length) in H. rewrite !length_app in H.
    cbn [String.length] in H. lia.
  - cbn in H. injection H as -> H. f_equal. apply IH. exact H.
Qed.

End StringFacts.

(** * Further properties *)

(** ** The causal mask *)

(** X1. [generate_causal_mask] refuses a negative size; for a size [n >= 0] it
    returns [n] rows of [n] entries, where the entry of row [i] and column
    [j] is zero when [j <= i] and minus infinity when [j > i]: a position is
    open to itself and to the positions before it, and closed to the later
    ones. *)
Theorem generate_causal_mask_entries (size : Z) :
  (size < 0 -> Utils.generate_causal_mask size = Raise (ExternalError "torch.ones"))
  /\ (0 <= size ->
      exists mask,
        Utils.generate_causal_mask size = Ok mask
        /\ PyList.len mask = size
        /\ Forall (fun row => PyList.len row = size) mask
        /\ forall i j : nat,
             (Z.of_nat i < size) -> (Z.of_nat j < size) ->
             (mask !! i ≫= fun row => row !! j)
             = Some (if (j <=? i)%nat then S754_zero false else S754_infinity true)).
Proof.
  unfold Utils.generate_causal_mask, Torch.ones. rewrite orb_diag. split.
  - intros Hneg. replace (size <? 0) with true by (symmetry; apply Z.ltb_lt; lia).
    reflexivity.
  - intros Hpos. replace (size <? 0) with false by (symmetry; apply Z.ltb_ge; lia).
    cbn [mbind result_bind]. eexists. split; [reflexivity|].
    set (n := Z.to_nat size).
    split; [|split].
    + unfold PyList.len, Torch.triu, Torch.scale.
      rewrite length_imap, length_fmap, length_replicate. lia.
    + unfold Torch.triu, Torch.scale. apply Forall_forall. intros row Hrow.
      apply elem_of_lookup_imap in Hrow as (i & r & -> & Hr).
      rewrite list_lookup_fmap in Hr.
      destruct (replicate n (replicate n Torch.one) !! i) as [r0|] eqn:Hr0; [|discriminate].
      apply lookup_replicate in Hr0 as [-> _]. injection Hr as <-.
      unfold PyList.len. rewrite length_imap, length_fmap, length_replicate. lia.
    + intros i j Hi Hj. unfold Torch.triu, Torch.scale.
      rewrite list_lookup_imap, list_lookup_fmap.
      rewrite lookup_replicate_2 by lia. cbn [fmap option_fmap option_map mbind option_bind].
      rewrite list_lookup_imap, list_lookup_fmap.
      rewrite lookup_replicate_2 by lia. cbn [fmap option_fmap option_map].
      f_equal. destruct (Nat.leb_spec j i) as [Hle|Hgt].
      * replace (1 <=? Z.of_nat j - Z.of_nat i) with false
          by (symmetry; apply Z.leb_gt; lia). reflexivity.
      * replace (1 <=? Z.of_nat j - Z.of_nat i) with true
          by (symmetry; apply Z.leb_le; lia). reflexivity.
Qed.

Lemma generate_causal_mask_entries_witness :
  0 <= 3
  /\ (exists mask,
        Utils.generate_causal_mask 3 = Ok mask
        /\ PyList.len mask = 3
        /\ (mask !! 0%nat ≫= fun row => row !! 1%nat) = Some (S754_infinity true)
        /\ (mask !! 1%nat ≫= fun row => row !! 0%nat) = Some (S754_zero false))
  /\ -1 < 0
  /\ Utils.generate_causal_mask (-1) = Raise (ExternalError "torch.ones").
Proof.
  assert (H0 : 0 <= 3) by lia. assert (H1 : -1 < 0) by lia.
  split; [exact H0|]. split; [|split; [exact H1|]].
  - destruct (proj2 (generate_causal_mask_entries 3) H0) as (mask & Hm & Hl & _ & He).
    exists mask. split; [exact Hm|]. split; [exact Hl|]. split.
    + apply (He 0%nat 1%nat); lia.
    + apply (He 1%nat 0%nat); lia.
  - exact (proj1 (generate_causal_mask_entries (-1)) H1).
Defined.

(** ** Token-to-MIDI conversion on known ids *)

Module ConvertMore.
Import Utils.

Lemma id_to_token_Some_acc (items : list (string * Z)) (d : gmap Z string) (i : Z)
    (t : string) :
  foldl (fun d kv => <[kv.2 := kv.1]> d) d items !! i = Some t ->
  d !! i = Some t \/ (t, i) ∈ items.
Proof.
  revert d. induction items as [|[t' j] items IH]; intros d H; cbn [foldl] in H.
  - auto.
  - apply IH in H as [H|H]; [|right; apply elem_of_cons; auto].
    cbn [fst snd] in H. destruct (decide (j = i)) as [->|Hne].
    + rewrite lookup_insert_eq in H. injection H as ->. right. apply elem_of_cons. auto.
    + rewrite lookup_insert_ne in H by exact Hne. auto.
Qed.

(** Every entry of the reverse dictionary comes from the vocabulary. *)
Lemma id_to_token_Some (items : list (string * Z)) (i : Z) (t : string) :
  id_to_token items !! i = Some t -> (t, i) ∈ items.
Proof.
  intros H. apply id_to_token_Some_acc in H as [H|H]; [|exact H].
  rewrite lookup_empty in H. discriminate.
Qed.

Lemma NoDup_snd_functional (items : list (string * Z)) (i : Z) (t t' : string) :
  NoDup items.*2 -> (t, i) ∈ items -> (t', i) ∈ items -> t = t'.
Proof.
  induction items as [|[s j] items IH]; intros Hnd H1 H2.
  - apply elem_of_nil in H1. contradiction.
  - cbn [fmap list_fmap snd] in Hnd. apply NoDup_cons in Hnd as [Hj Hnd].
    apply elem_of_cons in H1 as [H1|H1]; apply elem_of_cons in H2 as [H2|H2].
    + congruence.
    + injection H1 as -> ->. exfalso. apply Hj.
      apply list_elem_of_fmap. exists (t', j). auto.
    + injection H2 as -> ->. exfalso. apply Hj.
      apply list_elem_of_fmap. exists (t, j). auto.
    + auto.
Qed.

Lemma id_to_token_NoDup (items : list (string * Z)) (i : Z) (t : string) :
  NoDup items.*2 -> (t, i) ∈ items -> id_to_token items !! i = Some t.
Proof.
  intros Hnd Hin. destruct (id_to_token items !! i) as [t'|] eqn:Hl.
  - f_equal. apply id_to_token_Some in Hl. exact (NoDup_snd_functional _ _ _ _ Hnd Hl Hin).
  - apply ConvertFacts.id_to_token_None in Hl. exfalso. apply Hl.
    apply list_elem_of_fmap. exists (t, i). auto.
Qed.

Lemma comprehension_getitem_ok (d : gmap Z string) (token_ids : list Z)
    (tokens : list string) :
  Forall2 (fun i t => d !! i = Some t) token_ids tokens ->
  comprehension (getitem d) token_ids = Ok tokens.
Proof.
  induction 1 as [|i t ids ts Hi _ IH]; [reflexivity|].
  assert (Hg : getitem d i = Ok t) by (unfold getitem; rewrite Hi; reflexivity).
  cbn [comprehension]. rewrite Hg, IH. reflexivity.
Qed.

Lemma tokens_exist (d : gmap Z string) (token_ids : list Z) :
  (forall i, i ∈ token_ids -> is_Some (d !! i)) ->
  exists tokens, Forall2 (fun i t => d !! i = Some t) token_ids tokens.
Proof.
  induction token_ids as [|i ids IH]; intros H.
  - exists []. constructor.
  - destruct (H i) as [t Ht]; [apply elem_of_cons; auto|].
    destruct IH as [ts Hts]; [intros j Hj; apply H, elem_of_cons; auto|].
    exists (t :: ts). constructor; assumption.
Qed.

End ConvertMore.

(** X2. When every id of the sequence is an id of the vocabulary,
    [convert_to_midi] raises no lookup error: each id is turned into a token
    that the vocabulary maps to it, the tokens are written to
    [generated_tokens.txt] in order, and the decoded MIDI is written to
    [dump_path]. If the tokenizer refuses to decode, its exception is raised
    after the debug file was written and no output file is produced. *)
Theorem convert_to_midi_known_ids (token_ids : list Z) (tk : tokenizer)
    (dump_path : string) (w : world) :
  (forall i, i ∈ token_ids -> i ∈ (vocab tk).*2) ->
  exists tokens,
    Forall2 (fun i t => (t, i) ∈ vocab tk) token_ids tokens
    /\ Utils.convert_to_midi token_ids tk dump_path w
       = match decode tk [tokens] with
         | Ok midi =>
             (Ok tt,
              World (<[dump_path := Midi midi]>
                       (<["generated_tokens.txt" := Text tokens]> (fs w)))
                    (trace w) (stdout w) (logfile w))
         | Raise err =>
             (Raise err,
              World (<["generated_tokens.txt" := Text tokens]> (fs w))
                    (trace w) (stdout w) (logfile w))
         end.
Proof.
  intros Hknown.
  destruct (ConvertMore.tokens_exist (Utils.id_to_token (vocab tk)) token_ids)
    as [tokens Htok].
  { intros i Hi. apply Hknown in Hi.
    destruct (Utils.id_to_token (vocab tk) !! i) eqn:Hl; [eauto|].
    apply ConvertFacts.id_to_token_None in Hl. contradiction. }
  exists tokens. split.
  - eapply Forall2_impl; [exact Htok|]. intros i t. apply ConvertMore.id_to_token_Some.
  - unfold Utils.convert_to_midi, mbind at 1, M_bind at 1, lift at 1.
    rewrite (ConvertMore.comprehension_getitem_ok _ _ _ Htok).
    unfold mbind, M_bind, write_file, lift. cbn [fs trace stdout logfile].
    destruct (decode tk [tokens]); reflexivity.
Qed.

Lemma convert_to_midi_known_ids_witness :
  (forall i, i ∈ [1; 3; 2] -> i ∈ (vocab Sample.remi).*2)
  /\ exists w',
       Utils.convert_to_midi [1; 3; 2] Sample.remi "out.mid" Sample.empty_world = (Ok tt, w')
       /\ fs w' !! "out.mid" = Some (Midi "MThd").
Proof.
  assert (H : forall i, i ∈ [1; 3; 2] -> i ∈ (vocab Sample.remi).*2).
  { intros i Hi. cbn. rewrite !elem_of_cons in *. tauto. }
  split; [exact H|].
  destruct (convert_to_midi_known_ids [1; 3; 2] Sample.remi "out.mid"
              Sample.empty_world H) as (tokens & _ & Hrun).
  cbn [decode Sample.remi] in Hrun. eexists. split; [exact Hrun|].
  cbn [fs]. apply lookup_insert_eq.
Defined.

(** X3. The reverse dictionary inverts the vocabulary when no two tokens share
    an id: looking up the ids of any entries of the vocabulary gives their
    tokens back, in order. *)
Theorem id_to_token_round_trip (tk : tokenizer) (entries : list (string * Z)) :
  NoDup (vocab tk).*2 ->
  (forall x, x ∈ entries -> x ∈ vocab tk) ->
  Utils.comprehension (Utils.getitem (Utils.id_to_token (vocab tk))) entries.*2
  = Ok entries.*1.
Proof.
  intros Hnd Hsub. apply ConvertMore.comprehension_getitem_ok.
  apply Forall2_fmap. apply Forall_Forall2_diag. apply Forall_forall.
  intros [t i] Hin. cbn [fst snd].
  apply ConvertMore.id_to_token_NoDup; [exact Hnd|apply Hsub, Hin].
Qed.

Lemma id_to_token_round_trip_witness :
  NoDup (vocab Sample.remi).*2
  /\ (forall x, x ∈ [("Bar_None", 3); ("BOS_None", 1)] -> x ∈ vocab Sample.remi)
  /\ Utils.comprehension (Utils.getitem (Utils.id_to_token (vocab Sample.remi))) [3; 1]
     = Ok ["Bar_None"; "BOS_None"].
Proof.
  assert (H1 : NoDup (vocab Sample.remi).*2)
    by (apply (bool_decide_unpack _); vm_compute; exact I).
  assert (H2 : forall x, x ∈ [("Bar_None", 3); ("BOS_None", 1)] -> x ∈ vocab Sample.remi).
  { intros x Hx. cbn. rewrite !elem_of_cons in *. tauto. }
  split; [exact H1|]. split; [exact H2|].
  exact (id_to_token_round_trip Sample.remi _ H1 H2).
Defined.

(** ** Acquisition and splitting: failures and small corpora *)

Module AcquireMore.
Import Utils.




End AcquireMore.

(** X4. When the download fails, the data preparation raises the download error
    after one attempt: nothing is extracted, the chunking routine is not
    called and the disk is left as it was, so that [midis] is still missing
    at the next run. *)
Theorem prepare_data_download_fails (e : env) (w : world) :
  fs w !! "midis" = None -> remote e Pretrain.pretrain_url = None ->
  Pretrain.prepare_data e w
  = (Raise (ExternalError "gdown.download"),
     World (fs w) (trace w ++ [Download Pretrain.pretrain_url "midis.zip"])
           (stdout w ++ [Msg "downloading pretrain data: "]) (logfile w)).
Proof.
  intros Hn Hr. unfold Pretrain.prepare_data, mbind at 1, M_bind at 1, path_exists.
  rewrite bool_decide_eq_false_2 by (rewrite Hn; apply is_Some_None). cbn [negb].
  apply WorldFacts.bind_raise.
  unfold Utils.load_pretrain_data, Utils.gdown_download. rewrite Hr.
  reflexivity.
Qed.

Lemma prepare_data_download_fails_witness :
  let e := Env (fun _ => None) (fun _ => []) Sample.remi 1 ∅ ∅ []
               (fun p o _ _ _ => (p, o, Sample.one)) in
  fs Sample.empty_world !! "midis" = None
  /\ remote e Pretrain.pretrain_url = None
  /\ (Pretrain.prepare_data e Sample.empty_world).1 = Raise (ExternalError "gdown.download").
Proof.
  intros e.
  assert (H1 : fs Sample.empty_world !! "midis" = None) by reflexivity.
  assert (H2 : remote e Pretrain.pretrain_url = None) by reflexivity.
  split; [exact H1|]. split; [exact H2|].
  rewrite (prepare_data_download_fails e Sample.empty_world H1 H2). reflexivity.
Defined.





(** X7. Small corpora: the train subset is empty exactly when there are fewer
    than two files, and the validation subset is empty exactly when there
    are fewer than ten. *)
Theorem split_small_corpus (midi_paths : list string) :
  let n := PyList.len midi_paths in
  n < 2 ^ 50 ->
  exists train valid test,
    Utils.split_paths midi_paths = Ok (train, valid, test)
    /\ (train = [] <-> n < 2)
    /\ (valid = [] <-> n < 10).
Proof.
  intros n Hn.
  pose proof (SplitFacts.split_paths_slices midi_paths Hn) as Hs. fold n in Hs.
  pose proof (PyListFacts.len_nonneg midi_paths) as H0. fold n in H0.
  assert (Hlen : length midi_paths = Z.to_nat n) by (subst n; unfold PyList.len; lia).
  pose proof (Z.div_mod (8 * n) 10 ltac:(lia)) as D8.
  pose proof (Z.mod_pos_bound (8 * n) 10 ltac:(lia)) as M8.
  pose proof (Z.div_mod n 10 ltac:(lia)) as D1.
  pose proof (Z.mod_pos_bound n 10 ltac:(lia)) as M1.
  eexists _, _, _. split; [exact Hs|]. split.
  - rewrite <- length_zero_iff_nil, length_take. lia.
  - rewrite <- length_zero_iff_nil, length_take, length_drop. lia.
Qed.

Lemma split_small_corpus_witness :
  PyList.len (take 9 Sample.corpus) < 2 ^ 50
  /\ exists train test,
       Utils.split_paths (take 9 Sample.corpus) = Ok (train, [], test)
       /\ PyList.len train = 7.
Proof.
  assert (H : PyList.len (take 9 Sample.corpus) < 2 ^ 50) by (vm_compute; reflexivity).
  split; [exact H|].
  destruct (split_small_corpus (take 9 Sample.corpus) H)
    as (train & valid & test & Hs & _ & Hv).
  assert (Hv' : valid = []) by (apply Hv; vm_compute; reflexivity).
  subst valid. exists train, test. split; [exact Hs|].
  revert Hs. vm_compute. intros Hs. injection Hs as <- _. reflexivity.
Defined.

(** ** The trainer: shifted sequences, paths, resuming, empty loaders *)

Module TrainMore.
Import Pretrain.

Lemma slice_drop_first {A : Type} (l : list A) :
  PyList.slice l (Some 1) None = drop 1 l.
Proof.
  unfold PyList.slice, PyList.adjust_index. cbn [Z.ltb Z.compare].
  destruct l as [|x l]; [reflexivity|].
  assert (Hlen : PyList.len (x :: l) = 1 + PyList.len l)
    by (unfold PyList.len; cbn [length]; lia).
  pose proof (PyListFacts.len_nonneg l).
  rewrite Z.min_l by lia. change (Z.to_nat 1) with 1%nat.
  apply take_ge. rewrite length_drop. unfold PyList.len in *. cbn [length] in *. lia.
Qed.

Lemma epoch_checkpoint_path_inj (a b : Z) :
  epoch_checkpoint_path a = epoch_checkpoint_path b -> a = b.
Proof.
  unfold epoch_checkpoint_path. intros H.
  apply String.app_inj in H. apply StringFacts.app_inv_tail in H.
  apply pretty_Z_inj in H. exact H.
Qed.

End TrainMore.

(** X8. The next-token shift of lines 91 to 93: for every sequence of a batch,
    the decoder input is the sequence without its last token and the target
    is the sequence without its first token, so the two have the same length
    and the target at a position is the token that follows the decoder input
    at that position. *)
Theorem next_token_shift (b : batch) (i : nat) (row : list Z) :
  input_ids b !! i = Some row ->
  exists d t,
    Pretrain.decoder_input_of b !! i = Some d
    /\ Pretrain.target_of b !! i = Some t
    /\ length d = (length row - 1)%nat
    /\ length t = length d
    /\ (forall j, (j < length d)%nat -> d !! j = row !! j /\ t !! j = row !! S j).
Proof.
  intros Hrow. unfold Pretrain.decoder_input_of, Pretrain.target_of.
  rewrite !list_lookup_fmap, Hrow. cbn [fmap option_fmap option_map].
  rewrite PyListFacts.slice_drop_last, TrainMore.slice_drop_first.
  eexists _, _. split; [reflexivity|]. split; [reflexivity|].
  split; [rewrite length_take; lia|]. split; [rewrite length_take, length_drop; lia|].
  intros j Hj. rewrite length_take in Hj. split.
  - apply lookup_take_lt. lia.
  - rewrite lookup_drop. reflexivity.
Qed.

Lemma next_token_shift_witness :
  input_ids Sample.padded !! 0%nat = Some [1; 3; 2; 3]
  /\ Pretrain.decoder_input_of Sample.padded !! 0%nat = Some [1; 3; 2]
  /\ Pretrain.target_of Sample.padded !! 0%nat = Some [3; 2; 3].
Proof.
  assert (H : input_ids Sample.padded !! 0%nat = Some [1; 3; 2; 3]) by reflexivity.
  split; [exact H|].
  destruct (next_token_shift Sample.padded 0 _ H) as (d & t & Hd & Ht & _).
  rewrite Hd, Ht. revert Hd Ht. vm_compute. intros [= <-] [= <-]. auto.
Defined.

(** X9. Checkpoints of different epochs have different paths, so no checkpoint
    overwrites the checkpoint of another epoch; the path that the resume step
    reads is the path of epoch 4 and of no other epoch. *)
Theorem checkpoint_paths_distinct (a b : Z) :
  (Pretrain.epoch_checkpoint_path a = Pretrain.epoch_checkpoint_path b <-> a = b)
  /\ (Pretrain.epoch_checkpoint_path a = Pretrain.checkpoint_path <-> a = 4).
Proof.
  split; (split; [|intros ->; reflexivity]).
  - apply TrainMore.epoch_checkpoint_path_inj.
  - change Pretrain.checkpoint_path with (Pretrain.epoch_checkpoint_path 4).
    apply TrainMore.epoch_checkpoint_path_inj.
Qed.

(** X10. The resume step only reads: whatever the model, the optimizer and the
    disk, it writes no file and makes no external call; it prints and logs
    only when it succeeds in loading a checkpoint, and when it raises the
    world is exactly as before. *)
Theorem resume_only_reads (m : Pretrain.model) (o : state_dict) (w : world) :
  let '(r, w') := Pretrain.resume m o w in
  fs w' = fs w /\ trace w' = trace w
  /\ (forall err, r = Raise err -> w' = w)
  /\ (fs w !! Pretrain.checkpoint_path = None -> r = Ok (m, o, 0) /\ w' = w).
Proof.
  unfold Pretrain.resume, mbind at 1, M_bind at 1, path_exists.
  destruct (fs w !! Pretrain.checkpoint_path) as [f|] eqn:Hf.
  - rewrite bool_decide_eq_true_2 by eauto.
    unfold mbind at 1, M_bind at 1, Pretrain.torch_load. rewrite Hf.
    assert (Hraise : forall (err : exn),
               fs w = fs w /\ trace w = trace w
               /\ (forall err', @Raise (Pretrain.model * state_dict * Z) err = Raise err'
                                -> w = w)
               /\ (Some f = None -> @Raise (Pretrain.model * state_dict * Z) err
                                   = Ok (m, o, 0) /\ w = w))
      by (intros err; repeat split; auto; discriminate).
    destruct f; try apply Hraise.
    unfold mbind, M_bind, result_bind, lift, mret, M_ret, print, logging_info.
    destruct (Pretrain.get_module m); [|apply Hraise].
    destruct (Pretrain.dict_get obj "model_state_dict") as [v1|]; [|apply Hraise].
    destruct (Pretrain.as_state v1); [|apply Hraise].
    destruct (Pretrain.dict_get obj "optimizer_state_dict") as [v2|]; [|apply Hraise].
    destruct (Pretrain.as_state v2); [|apply Hraise].
    destruct (Pretrain.dict_get obj "epoch") as [v3|]; [|apply Hraise].
    destruct (Pretrain.as_int v3); [|apply Hraise].
    cbn [fs trace]. repeat split; auto; discriminate.
  - rewrite bool_decide_eq_false_2 by apply is_Some_None.
    cbn [mret M_ret]. repeat split; auto.
Qed.

(** X11. With an empty data loader the first epoch of the loop divides by zero
    at its end: on a disk with the corpus prepared and no checkpoint to
    resume from, [main] raises [ZeroDivisionError] whatever the number of
    accelerators, without a call of the model and before anything is logged
    or saved. *)
Theorem main_empty_loader (e : env) (w : world) :
  data_loader e = [] ->
  dir_or_free w "pretrain_checkpoints" -> is_Some (fs w !! "midis") ->
  fs w !! Pretrain.checkpoint_path = None ->
  exists w',
    Pretrain.main e w = (Raise ZeroDivisionError, w')
    /\ trace w' = trace w /\ logfile w' = logfile w
    /\ (forall q, q ≠ "pretrain_checkpoints" -> fs w' !! q = fs w !! q).
Proof.
  intros Hl Hd Hm Hf. destruct (ResumeFacts.main_prepared e w Hd Hm) as (d & Hq & Hmain).
  exists (World d (trace w) (stdout w) (logfile w)).
  split; [|split; [reflexivity|split; [reflexivity|exact Hq]]].
  rewrite Hmain. set (w0 := World d _ _ _).
  assert (Hf' : fs w0 !! Pretrain.checkpoint_path = None)
    by (subst w0; cbn [fs]; rewrite Hq by done; exact Hf).
  rewrite (WorldFacts.bind_ok _ _ _ _ _ (ResumeFacts.resume_absent _ _ w0 Hf')).
  apply WorldFacts.bind_raise. unfold Pretrain.train.
  change (PyList.range 0 Pretrain.num_epochs)
    with (0 :: PyList.range 1 Pretrain.num_epochs).
  cbn [foldM]. apply WorldFacts.bind_raise.
  unfold Pretrain.train_epoch, Pretrain.train_batches. rewrite Hl. reflexivity.
Qed.

Lemma main_empty_loader_witness :
  data_loader (Sample.machine 2 []) = []
  /\ dir_or_free Sample.prepared "pretrain_checkpoints"
  /\ is_Some (fs Sample.prepared !! "midis")
  /\ fs Sample.prepared !! Pretrain.checkpoint_path = None
  /\ exists w', Pretrain.main (Sample.machine 2 []) Sample.prepared
                = (Raise ZeroDivisionError, w').
Proof.
  assert (Hl : data_loader (Sample.machine 2 []) = []) by reflexivity.
  assert (Hd : dir_or_free Sample.prepared "pretrain_checkpoints") by (right; reflexivity).
  assert (Hm : is_Some (fs Sample.prepared !! "midis")) by (eexists; reflexivity).
  assert (Hf : fs Sample.prepared !! Pretrain.checkpoint_path = None) by reflexivity.
  split; [exact Hl|]. split; [exact Hd|]. split; [exact Hm|]. split; [exact Hf|].
  destruct (main_empty_loader (Sample.machine 2 []) Sample.prepared Hl Hd Hm Hf)
    as (w' & Hmain & _).
  exists w'. exact Hmain.
Defined.

(** ** Complete runs with a wrapped model *)

Module RunFacts.
Import Pretrain LoopFacts EpochFacts.

Lemma filter_save_forward (bs : list batch) :
  filter (fun ev => is_save ev = true) (forward_events bs) = [].
Proof.
  unfold forward_events. induction bs as [|b bs IH]; [reflexivity|].
  cbn [fmap list_fmap]. rewrite filter_cons_False by (cbn; discriminate). exact IH.
Qed.

(** An epoch with a wrapped model, with the world it leaves. *)
Lemma train_epoch_wrapped_exact (e : env) (epoch : Z) (st : train_state) (inner : model)
    (w : world) :
  st_model st = DataParallel inner ->
  0 <= st_step st -> 1 <= PyList.len (data_loader e) ->
  st_step st + PyList.len (data_loader e) < 2 ^ 53 ->
  let po := (parameters (st_model st), st_optimizer st) in
  let w1 := world_after_batches e epoch st w in
  exists l,
    last (losses e (data_loader e) po) = Some l
    /\ st_model (state_after_epoch e st)
       = DataParallel (set_parameters inner (after_batches e (data_loader e) po).1)
    /\ train_epoch e epoch st w =
       (Ok (state_after_epoch e st),
        if save_due epoch
        then World (<[epoch_checkpoint_path epoch :=
                        Pickle (checkpoint_record epoch
                                  (after_batches e (data_loader e) po).1
                                  (after_batches e (data_loader e) po).2 l)]> (fs w))
                   (trace w1 ++ [Save (epoch_checkpoint_path epoch)])
                   (stdout w1 ++ [Msg ("Saved checkpoint: " +:+ epoch_checkpoint_path epoch)])
                   (logfile w1)
        else w1).
Proof.
  intros Hm H0 H1 Hs po w1. rewrite train_epoch_spec by assumption.
  assert (Hne : losses e (data_loader e) po ≠ []).
  { intros Hnil. pose proof (length_losses e (data_loader e) po) as Hl.
    rewrite Hnil in Hl. unfold PyList.len in H1. cbn [length] in Hl. lia. }
  destruct (last (losses e (data_loader e) po)) as [l|] eqn:Hlast;
    [|apply last_None in Hlast; contradiction].
  assert (Hl : st_loss (state_after_epoch e st) = Some l).
  { unfold state_after_epoch, last_loss. cbn [st_loss]. fold po. rewrite Hlast. reflexivity. }
  assert (Hmod : st_model (state_after_epoch e st)
                 = DataParallel (set_parameters inner (after_batches e (data_loader e) po).1)).
  { unfold state_after_epoch. cbn [st_model]. fold po. rewrite Hm. reflexivity. }
  exists l. split; [reflexivity|]. split; [exact Hmod|].
  destruct (save_due epoch); [|reflexivity].
  rewrite (WorldFacts.bind_ok _ _ _ _ _
             (save_checkpoint_wrapped (state_after_epoch e st) _ l epoch
                (world_after_batches e epoch st w) Hmod Hl)).
  rewrite parameters_set_parameters. reflexivity.
Qed.

(** Any number of epochs with a wrapped model. *)
Lemma train_epochs_wrapped (e : env) (epochs : list Z) :
  forall (st : train_state) (w : world) (inner : model),
  st_model st = DataParallel inner ->
  0 <= st_step st -> 1 <= PyList.len (data_loader e) ->
  st_step st + PyList.len epochs * PyList.len (data_loader e) < 2 ^ 53 ->
  exists st' w' logs out,
    foldM (train_epoch e) epochs st w = (Ok st', w')
    /\ st_step st' = st_step st + PyList.len epochs * PyList.len (data_loader e)
    /\ filter (fun ev => is_save ev = true) (trace w')
       = filter (fun ev => is_save ev = true) (trace w)
         ++ ((fun ep => Save (epoch_checkpoint_path ep))
               <$> filter (fun ep => save_due ep = true) epochs)
    /\ logfile w' = logfile w ++ logs
    /\ stdout w' = stdout w ++ out
    /\ (forall p, (forall ep, ep ∈ epochs -> save_due ep = true ->
                              p ≠ epoch_checkpoint_path ep) ->
                  fs w' !! p = fs w !! p)
    /\ (forall ep, ep ∈ epochs -> save_due ep = true ->
          exists sd osd l,
            fs w' !! epoch_checkpoint_path ep = Some (Pickle (checkpoint_record ep sd osd l)))
    /\ (forall ep sd osd l,
          fs w !! epoch_checkpoint_path ep = Some (Pickle (checkpoint_record ep sd osd l)) ->
          exists sd' osd' l',
            fs w' !! epoch_checkpoint_path ep
            = Some (Pickle (checkpoint_record ep sd' osd' l')))
    /\ (forall p, is_Some (fs w !! p) -> is_Some (fs w' !! p)).
Proof.
  induction epochs as [|epoch epochs IH]; intros st w inner Hm H0 H1 Hs.
  - exists st, w, [], []. cbn [foldM]. unfold PyList.len at 1. cbn [length].
    rewrite !app_nil_r. repeat split; try reflexivity; try lia.
    + intros ep Hin. apply elem_of_nil in Hin. contradiction.
    + intros ep sd osd l H. eauto.
    + auto.
  - assert (Hlen : PyList.len (epoch :: epochs) = 1 + PyList.len epochs)
      by (unfold PyList.len; cbn [length]; lia).
    pose proof (PyListFacts.len_nonneg epochs) as Hnn.
    rewrite Hlen in *.
    destruct (train_epoch_wrapped_exact e epoch st inner w Hm H0 H1 ltac:(nia))
      as (l & Hlast & Hmod & Hep).
    set (st1 := state_after_epoch e st) in *.
    match type of Hep with _ = (_, ?x) => set (w1 := x) in * end.
    assert (S1 : st_step st1 = st_step st + PyList.len (data_loader e)) by reflexivity.
    destruct (IH st1 w1 _ Hmod ltac:(lia) H1 ltac:(nia))
      as (st' & w' & logs & out & Hrun & Hstep & Hsave & Hlog & Hout & Hfr & Hnew & Hold
          & Hkeep).
    assert (W1 : exists logs1 out1,
               logfile w1 = logfile w ++ logs1 /\ stdout w1 = stdout w ++ out1
               /\ filter (fun ev => is_save ev = true) (trace w1)
                  = filter (fun ev => is_save ev = true) (trace w)
                    ++ (if save_due epoch then [Save (epoch_checkpoint_path epoch)] else [])
               /\ fs w1 = if save_due epoch
                          then <[epoch_checkpoint_path epoch :=
                                   Pickle (checkpoint_record epoch
                                     (after_batches e (data_loader e)
                                        (parameters (st_model st), st_optimizer st)).1
                                     (after_batches e (data_loader e)
                                        (parameters (st_model st), st_optimizer st)).2 l)]>
                                 (fs w)
                          else fs w).
    { subst w1. unfold world_after_batches. destruct (save_due epoch);
        cbn [fs trace stdout logfile]; eexists _, _;
        (split; [reflexivity|]); (split; [rewrite <- ?app_assoc; reflexivity|]);
        (split; [|reflexivity]);
        rewrite !filter_app, filter_save_forward, ?app_nil_r; reflexivity. }
    destruct W1 as (logs1 & out1 & L1 & O1 & T1 & F1).
    exists st', w', (logs1 ++ logs), (out1 ++ out).
    split; [cbn [foldM]; rewrite (WorldFacts.bind_ok _ _ _ _ _ Hep); exact Hrun|].
    split; [rewrite Hstep, S1; lia|].
    split.
    { rewrite Hsave, T1, <- app_assoc. f_equal.
      destruct (save_due epoch) eqn:Hdue.
      - rewrite filter_cons_True by exact Hdue. reflexivity.
      - rewrite filter_cons_False by (rewrite Hdue; discriminate). reflexivity. }
    split; [rewrite Hlog, L1, app_assoc; reflexivity|].
    split; [rewrite Hout, O1, app_assoc; reflexivity|].
    split; [|split; [|split]].
    + intros p Hp. rewrite Hfr by (intros ep Hin; apply Hp, elem_of_cons; auto).
      rewrite F1. destruct (save_due epoch) eqn:Hdue; [|reflexivity].
      apply lookup_insert_ne. intros Heq. apply (Hp epoch); [apply elem_of_cons; auto|exact Hdue|].
      congruence.
    + intros ep Hin Hdue. apply elem_of_cons in Hin as [->|Hin]; [|auto].
      eapply Hold. rewrite F1, Hdue. apply lookup_insert_eq.
    + intros ep sd osd l0 Hw. rewrite F1 in Hold.
      destruct (save_due epoch) eqn:Hdue; [|eauto].
      destruct (decide (epoch = ep)) as [->|Hne].
      * eapply Hold. apply lookup_insert_eq.
      * eapply Hold. rewrite lookup_insert_ne; [exact Hw|].
        intros Heq. apply TrainMore.epoch_checkpoint_path_inj in Heq. contradiction.
    + intros p Hp. apply Hkeep. rewrite F1. destruct (save_due epoch); [|exact Hp].
      destruct (decide (epoch_checkpoint_path epoch = p)) as [<-|Hne].
      * rewrite lookup_insert_eq. eauto.
      * rewrite lookup_insert_ne by exact Hne. exact Hp.
Qed.

Lemma checkpoint_record_lookup (ep : Z) (sd osd : state_dict) (l : spec_float) :
  checkpoint_record ep sd osd l !! "model_state_dict" = Some (VState sd)
  /\ checkpoint_record ep sd osd l !! "optimizer_state_dict" = Some (VState osd)
  /\ checkpoint_record ep sd osd l !! "epoch" = Some (VInt ep)
  /\ checkpoint_record ep sd osd l !! "loss" = Some (VFloat l).
Proof.
  unfold checkpoint_record. repeat split.
Qed.

(** The whole loop with a wrapped model, from a given first epoch. *)
Lemma train_wrapped (e : env) (inner : model) (o : state_dict) (start_epoch : Z)
    (w : world) :
  1 <= PyList.len (data_loader e) -> 20 * PyList.len (data_loader e) < 2 ^ 53 ->
  0 <= start_epoch ->
  exists st' w' logs out,
    train e (DataParallel inner) o start_epoch w = (Ok st', w')
    /\ filter (fun ev => is_save ev = true) (trace w')
       = filter (fun ev => is_save ev = true) (trace w)
         ++ ((fun ep => Save (epoch_checkpoint_path ep))
               <$> filter (fun ep => save_due ep = true)
                     (PyList.range start_epoch num_epochs))
    /\ logfile w' = logfile w ++ logs
    /\ stdout w' = stdout w ++ out
    /\ (forall p, (forall ep, start_epoch <= ep < 20 -> save_due ep = true ->
                              p ≠ epoch_checkpoint_path ep) ->
                  fs w' !! p = fs w !! p)
    /\ (forall ep, start_epoch <= ep < 20 -> save_due ep = true ->
          exists sd osd l,
            fs w' !! epoch_checkpoint_path ep = Some (Pickle (checkpoint_record ep sd osd l)))
    /\ (forall ep sd osd l,
          fs w !! epoch_checkpoint_path ep = Some (Pickle (checkpoint_record ep sd osd l)) ->
          exists sd' osd' l',
            fs w' !! epoch_checkpoint_path ep
            = Some (Pickle (checkpoint_record ep sd' osd' l')))
    /\ (forall p, is_Some (fs w !! p) -> is_Some (fs w' !! p)).
Proof.
  intros H1 H20 Hstart. unfold train.
  assert (Hlen : PyList.len (PyList.range start_epoch num_epochs) <= 20).
  { unfold PyList.len, PyList.range, num_epochs. rewrite length_seqZ. lia. }
  pose proof (PyListFacts.len_nonneg (PyList.range start_epoch num_epochs)) as Hnn.
  destruct (train_epochs_wrapped e (PyList.range start_epoch num_epochs)
              (TrainState (DataParallel inner) o 0 None) w inner eq_refl
              ltac:(cbn [st_step]; lia) H1 ltac:(cbn [st_step]; nia))
    as (st' & w' & logs & out & Hrun & _ & Hsave & Hlog & Hout & Hfr & Hnew & Hold & Hkeep).
  exists st', w', logs, out. split; [exact Hrun|]. split; [exact Hsave|].
  split; [exact Hlog|]. split; [exact Hout|]. split; [|split; [|split; [exact Hold|exact Hkeep]]].
  - intros p Hp. apply Hfr. intros ep Hin. apply Hp.
    apply ResumeFacts.train_epochs_range in Hin. exact Hin.
  - intros ep Hin. apply Hnew. apply ResumeFacts.train_epochs_range. exact Hin.
Qed.

Lemma step_logs_length (ls : list spec_float) :
  forall (s0 : Z) (prev : list spec_float),
  0 <= s0 ->
  PyList.len (step_logs s0 prev ls) = (s0 + PyList.len ls) / 500 - s0 / 500.
Proof.
  induction ls as [|x ls IH]; intros s0 prev H0.
  - unfold PyList.len. cbn [length step_logs seq omap list_omap Z.of_nat].
    rewrite Z.add_0_r. lia.
  - rewrite step_logs_cons. unfold PyList.len in *. rewrite length_app, Nat2Z.inj_add.
    rewrite IH by lia. cbn [length]. rewrite Nat2Z.inj_succ.
    replace (s0 + Z.succ (Z.of_nat (length ls))) with (s0 + 1 + Z.of_nat (length ls)) by lia.
    pose proof (Z.div_mod s0 500 ltac:(lia)) as D0.
    pose proof (Z.mod_pos_bound s0 500 ltac:(lia)) as M0.
    pose proof (Z.div_mod (s0 + 1) 500 ltac:(lia)) as D1.
    pose proof (Z.mod_pos_bound (s0 + 1) 500 ltac:(lia)) as M1.
    unfold log_interval.
    destruct (Z.eqb_spec ((s0 + 1) `mod` 500) 0) as [Hz|Hz]; cbn [length Z.of_nat]; lia.
Qed.

(** The first steps of [main] on a prepared disk, with the directory of the
    checkpoints in place. *)
Lemma main_prepared_dir (e : env) (w : world) :
  dir_or_free w "pretrain_checkpoints" -> is_Some (fs w !! "midis") ->
  exists d,
    d !! "pretrain_checkpoints" = Some Dir
    /\ (forall q, q ≠ "pretrain_checkpoints" -> d !! q = fs w !! q)
    /\ main e w =
       ('(model, optimizer, start_epoch) ← resume (build_model e) (initial_opt e);
        train e model optimizer start_epoch;; mret tt)
         (World d (trace w) (stdout w) (logfile w)).
Proof.
  intros Hd Hm. destruct (WorldFacts.makedirs_ok w _ Hd) as (d & Hmk & Hdir & Hq).
  exists d. split; [exact Hdir|]. split; [exact Hq|]. unfold main.
  rewrite (WorldFacts.bind_ok _ _ _ _ _ Hmk).
  assert (Hm' : is_Some (fs (World d (trace w) (stdout w) (logfile w)) !! "midis"))
    by (cbn [fs]; rewrite Hq by done; exact Hm).
  rewrite (WorldFacts.bind_ok _ _ _ _ _ (AcquireFacts.prepare_data_skipped e _ Hm')).
  reflexivity.
Qed.

Lemma not_checkpoint_path (p : string) (ep : Z) :
  p = "pretrain_checkpoints" \/ p = "midis" -> p ≠ epoch_checkpoint_path ep.
Proof. unfold epoch_checkpoint_path. intros [-> | ->]; cbn; discriminate. Qed.

(** A run of [main] from scratch with a wrapped model. *)
Lemma main_wrapped_fresh (e : env) (w : world) :
  1 < cuda_device_count e ->
  dir_or_free w "pretrain_checkpoints" -> is_Some (fs w !! "midis") ->
  fs w !! checkpoint_path = None ->
  1 <= PyList.len (data_loader e) -> 20 * PyList.len (data_loader e) < 2 ^ 53 ->
  exists w' logs,
    main e w = (Ok tt, w')
    /\ filter (fun ev => is_save ev = true) (trace w')
       = filter (fun ev => is_save ev = true) (trace w)
         ++ ((fun ep => Save (epoch_checkpoint_path ep)) <$> [2; 4; 6; 8; 10; 12; 14; 16; 18])
    /\ logfile w' = logfile w ++ logs
    /\ fs w' !! "pretrain_checkpoints" = Some Dir
    /\ (forall ep, 0 <= ep < 20 -> save_due ep = true ->
          exists sd osd l,
            fs w' !! epoch_checkpoint_path ep = Some (Pickle (checkpoint_record ep sd osd l)))
    /\ (forall p, is_Some (fs w !! p) -> is_Some (fs w' !! p)).
Proof.
  intros Hc Hd Hm Hf H1 H20.
  destruct (main_prepared_dir e w Hd Hm) as (d & Hdir & Hq & Hmain).
  rewrite Hmain. set (w0 := World d _ _ _).
  assert (Hf' : fs w0 !! checkpoint_path = None)
    by (subst w0; cbn [fs]; rewrite Hq by done; exact Hf).
  rewrite (WorldFacts.bind_ok _ _ _ _ _ (ResumeFacts.resume_absent _ _ w0 Hf')).
  rewrite ResumeFacts.build_model_wrapped by exact Hc.
  destruct (train_wrapped e (MidiDecoderOnlyModel (initial_params e)) (initial_opt e) 0 w0
              H1 H20 ltac:(lia))
    as (st' & w' & logs & out & Hrun & Hsave & Hlog & Hout & Hfr & Hnew & Hold & Hkeep).
  exists w', logs.
  split; [rewrite (WorldFacts.bind_ok _ _ _ _ _ Hrun); reflexivity|].
  split; [exact Hsave|]. split; [exact Hlog|]. split; [|split; [exact Hnew|]].
  - rewrite Hfr; [exact Hdir|]. intros ep _ _. apply not_checkpoint_path. auto.
  - intros p Hp. apply Hkeep. subst w0. cbn [fs].
    destruct (decide (p = "pretrain_checkpoints")) as [->|Hne].
    + rewrite Hdir. eauto.
    + rewrite Hq by exact Hne. exact Hp.
Qed.

End RunFacts.

(** X12. With more than one accelerator, a prepared corpus, no checkpoint at the
    resume path and a loader that is not empty, [main] runs its twenty
    epochs to the end and saves the checkpoints of the epochs 2, 4, ..., 18,
    in that order and no other; each is a checkpoint record of its epoch,
    and every file that was on the disk is still there. *)
Theorem main_complete_run (e : env) (w : world) :
  1 < cuda_device_count e ->
  dir_or_free w "pretrain_checkpoints" -> is_Some (fs w !! "midis") ->
  fs w !! Pretrain.checkpoint_path = None ->
  1 <= PyList.len (data_loader e) -> 20 * PyList.len (data_loader e) < 2 ^ 53 ->
  exists w',
    Pretrain.main e w = (Ok tt, w')
    /\ filter (fun ev => is_save ev = true) (trace w')
       = filter (fun ev => is_save ev = true) (trace w)
         ++ ((fun ep => Save (Pretrain.epoch_checkpoint_path ep))
               <$> [2; 4; 6; 8; 10; 12; 14; 16; 18])
    /\ (forall ep, ep ∈ [2; 4; 6; 8; 10; 12; 14; 16; 18] ->
          exists sd osd l,
            fs w' !! Pretrain.epoch_checkpoint_path ep
            = Some (Pickle (Pretrain.checkpoint_record ep sd osd l)))
    /\ (forall p, is_Some (fs w !! p) -> is_Some (fs w' !! p)).
Proof.
  intros Hc Hd Hm Hf H1 H20.
  destruct (RunFacts.main_wrapped_fresh e w Hc Hd Hm Hf H1 H20)
    as (w' & logs & Hmain & Hsave & _ & _ & Hnew & Hkeep).
  exists w'. split; [exact Hmain|]. split; [exact Hsave|]. split; [|exact Hkeep].
  intros ep Hin. rewrite !elem_of_cons in Hin.
  destruct Hin as [->|[->|[->|[->|[->|[->|[->|[->|[->|Hin]]]]]]]]];
    [apply Hnew; [lia|reflexivity]..|apply elem_of_nil in Hin; contradiction].
Qed.

Lemma main_complete_run_witness :
  let e := Sample.machine 2 [Sample.padded] in
  1 < cuda_device_count e
  /\ dir_or_free Sample.prepared "pretrain_checkpoints"
  /\ is_Some (fs Sample.prepared !! "midis")
  /\ fs Sample.prepared !! Pretrain.checkpoint_path = None
  /\ 1 <= PyList.len (data_loader e)
  /\ 20 * PyList.len (data_loader e) < 2 ^ 53
  /\ exists w', Pretrain.main e Sample.prepared = (Ok tt, w')
                /\ is_Some (fs w' !! Pretrain.epoch_checkpoint_path 18).
Proof.
  intros e.
  assert (Hc : 1 < cuda_device_count e) by (vm_compute; reflexivity).
  assert (Hd : dir_or_free Sample.prepared "pretrain_checkpoints") by (right; reflexivity).
  assert (Hm : is_Some (fs Sample.prepared !! "midis")) by (eexists; reflexivity).
  assert (Hf : fs Sample.prepared !! Pretrain.checkpoint_path = None) by reflexivity.
  assert (H1 : 1 <= PyList.len (data_loader e)) by (vm_compute; discriminate).
  assert (H20 : 20 * PyList.len (data_loader e) < 2 ^ 53) by (vm_compute; reflexivity).
  split; [exact Hc|]. split; [exact Hd|]. split; [exact Hm|]. split; [exact Hf|].
  split; [exact H1|]. split; [exact H20|].
  destruct (main_complete_run e Sample.prepared Hc Hd Hm Hf H1 H20)
    as (w' & Hmain & _ & Hnew & _).
  exists w'. split; [exact Hmain|].
  destruct (Hnew 18) as (sd & osd & l & Hl); [rewrite !elem_of_cons; auto 12|].
  rewrite Hl. eauto.
Defined.



(** X14. Resuming from a checkpoint that records epoch 19 or a later one leaves
    nothing to do: with a wrapped model [main] loads the checkpoint, logs
    that it resumed, runs no epoch and returns, without a call of the model
    and without saving anything. *)
Theorem main_resume_after_last_epoch (e : env) (w : world) (obj : gmap string pyval)
    (sd osd : state_dict) (k : Z) :
  1 < cuda_device_count e ->
  dir_or_free w "pretrain_checkpoints" -> is_Some (fs w !! "midis") ->
  fs w !! Pretrain.checkpoint_path = Some (Pickle obj) ->
  obj !! "model_state_dict" = Some (VState sd) ->
  obj !! "optimizer_state_dict" = Some (VState osd) ->
  obj !! "epoch" = Some (VInt k) ->
  19 <= k ->
  exists w',
    Pretrain.main e w = (Ok tt, w')
    /\ trace w' = trace w
    /\ logfile w' = logfile w ++ [Msg ("Resumed training from checkpoint: epoch " +:+ pretty k)]
    /\ (forall q, q ≠ "pretrain_checkpoints" -> fs w' !! q = fs w !! q).
Proof.
  intros Hc Hd Hm Hf K1 K2 K3 Hk.
  destruct (RunFacts.main_prepared_dir e w Hd Hm) as (d & _ & Hq & Hmain).
  exists (World d (trace w)
                (stdout w ++ [Msg ("Loaded checkpoint from epoch " +:+ pretty k)])
                (logfile w ++ [Msg ("Resumed training from checkpoint: epoch " +:+ pretty k)])).
  split; [|split; [reflexivity|split; [reflexivity|exact Hq]]].
  rewrite Hmain. set (w0 := World d _ _ _).
  assert (Hf0 : fs w0 !! Pretrain.checkpoint_path = Some (Pickle obj))
    by (subst w0; cbn [fs]; rewrite Hq by done; exact Hf).
  rewrite ResumeFacts.build_model_wrapped by exact Hc.
  rewrite (WorldFacts.bind_ok _ _ _ _ _
             (ResumeFacts.resume_wrapped _ _ w0 obj sd osd k Hf0 K1 K2 K3)).
  cbv iota beta. unfold Pretrain.train.
  rewrite PyListFacts.range_empty by (unfold Pretrain.num_epochs; lia).
  reflexivity.
Qed.

Lemma main_resume_after_last_epoch_witness :
  let e := Sample.machine 2 [Sample.padded] in
  1 < cuda_device_count e
  /\ dir_or_free Sample.finished "pretrain_checkpoints"
  /\ is_Some (fs Sample.finished !! "midis")
  /\ fs Sample.finished !! Pretrain.checkpoint_path
     = Some (Pickle (Pretrain.checkpoint_record 19 ∅ ∅ Sample.one))
  /\ 19 <= 19
  /\ exists w', Pretrain.main e Sample.finished = (Ok tt, w') /\ trace w' = [].
Proof.
  intros e.
  assert (Hc : 1 < cuda_device_count e) by (vm_compute; reflexivity).
  assert (Hd : dir_or_free Sample.finished "pretrain_checkpoints") by (right; reflexivity).
  assert (Hm : is_Some (fs Sample.finished !! "midis")) by (eexists; reflexivity).
  assert (Hf : fs Sample.finished !! Pretrain.checkpoint_path
               = Some (Pickle (Pretrain.checkpoint_record 19 ∅ ∅ Sample.one)))
    by reflexivity.
  assert (Hk : 19 <= 19) by lia.
  split; [exact Hc|]. split; [exact Hd|]. split; [exact Hm|]. split; [exact Hf|].
  split; [exact Hk|].
  destruct (RunFacts.checkpoint_record_lookup 19 ∅ ∅ Sample.one) as (K1 & K2 & K3 & _).
  destruct (main_resume_after_last_epoch e Sample.finished _ ∅ ∅ 19 Hc Hd Hm Hf K1 K2 K3 Hk)
    as (w' & Hmain & Htr & _).
  exists w'. split; [exact Hmain|exact Htr].
Defined.

(** A witness of the resume step on a disk without a checkpoint. *)
Lemma resume_only_reads_witness :
  fs Sample.prepared !! Pretrain.checkpoint_path = None
  /\ Pretrain.resume (Pretrain.MidiDecoderOnlyModel ∅) ∅ Sample.prepared
     = (Ok (Pretrain.MidiDecoderOnlyModel ∅, ∅, 0), Sample.prepared).
Proof.
  assert (Hf : fs Sample.prepared !! Pretrain.checkpoint_path = None) by reflexivity.
  split; [exact Hf|].
  pose proof (resume_only_reads (Pretrain.MidiDecoderOnlyModel ∅) ∅ Sample.prepared) as H.
  destruct (Pretrain.resume (Pretrain.MidiDecoderOnlyModel ∅) ∅ Sample.prepared) as [r w'].
  destruct H as (_ & _ & _ & H). destruct (H Hf) as [-> ->]. reflexivity.
Defined.

(** X15. The checkpoint of an epoch records, under "loss", the loss of the last
    batch of the epoch and not the average that the epoch's log line shows;
    its model and optimizer states are those the training continues with,
    and no other file changes. *)
Theorem checkpoint_holds_last_batch_loss (e : env) (epoch : Z) (st : Pretrain.train_state)
    (inner : Pretrain.model) (w : world) :
  Pretrain.st_model st = Pretrain.DataParallel inner ->
  0 <= Pretrain.st_step st -> 1 <= PyList.len (data_loader e) ->
  Pretrain.st_step st + PyList.len (data_loader e) < 2 ^ 53 ->
  Pretrain.save_due epoch = true ->
  exists st' w' l,
    Pretrain.train_epoch e epoch st w = (Ok st', w')
    /\ last (Pretrain.losses e (data_loader e)
               (Pretrain.parameters (Pretrain.st_model st), Pretrain.st_optimizer st))
       = Some l
    /\ fs w' !! Pretrain.epoch_checkpoint_path epoch
       = Some (Pickle (Pretrain.checkpoint_record epoch
                         (Pretrain.parameters (Pretrain.st_model st'))
                         (Pretrain.st_optimizer st') l))
    /\ (forall p, p ≠ Pretrain.epoch_checkpoint_path epoch -> fs w' !! p = fs w !! p).
Proof.
  intros Hm H0 H1 Hs Hdue.
  destruct (RunFacts.train_epoch_wrapped_exact e epoch st inner w Hm H0 H1 Hs)
    as (l & Hlast & Hmod & Hep).
  rewrite Hdue in Hep.
  eexists _, _, l. split; [exact Hep|]. split; [exact Hlast|]. cbn [fs]. split.
  - rewrite lookup_insert_eq, Hmod. cbn [Pretrain.parameters].
    rewrite LoopFacts.parameters_set_parameters. reflexivity.
  - intros p Hp. rewrite lookup_insert_ne by congruence. reflexivity.
Qed.

Lemma checkpoint_holds_last_batch_loss_witness :
  let e := Sample.machine 2 [Sample.padded; Sample.unpadded] in
  let st := Pretrain.TrainState (Pretrain.build_model e) ∅ 0 None in
  Pretrain.st_model st = Pretrain.DataParallel (Pretrain.MidiDecoderOnlyModel ∅)
  /\ 0 <= Pretrain.st_step st
  /\ 1 <= PyList.len (data_loader e)
  /\ Pretrain.st_step st + PyList.len (data_loader e) < 2 ^ 53
  /\ Pretrain.save_due 2 = true
  /\ exists st' w',
       Pretrain.train_epoch e 2 st Sample.prepared = (Ok st', w')
       /\ fs w' !! Pretrain.epoch_checkpoint_path 2
          = Some (Pickle (Pretrain.checkpoint_record 2
                            (Pretrain.parameters (Pretrain.st_model st'))
                            (Pretrain.st_optimizer st') Sample.one)).
Proof.
  intros e st.
  assert (Hm : Pretrain.st_model st = Pretrain.DataParallel (Pretrain.MidiDecoderOnlyModel ∅))
    by reflexivity.
  assert (H0 : 0 <= Pretrain.st_step st) by (vm_compute; discriminate).
  assert (H1 : 1 <= PyList.len (data_loader e)) by (vm_compute; discriminate).
  assert (Hs : Pretrain.st_step st + PyList.len (data_loader e) < 2 ^ 53)
    by (vm_compute; reflexivity).
  assert (Hd : Pretrain.save_due 2 = true) by reflexivity.
  split; [exact Hm|]. split; [exact H0|]. split; [exact H1|]. split; [exact Hs|].
  split; [exact Hd|].
  destruct (checkpoint_holds_last_batch_loss e 2 st _ Sample.prepared Hm H0 H1 Hs Hd)
    as (st' & w' & l & Hep & Hlast & Hck & _).
  exists st', w'. split; [exact Hep|]. rewrite Hck.
  revert Hlast. vm_compute. intros [= <-]. reflexivity.
Defined.

(** X16. A checkpoint saved for epoch 4 by a wrapped model is the one the resume
    step reads back: a fresh wrapped model resumed from it has the saved
    parameters, the optimizer has the saved state, and training continues
    with epoch 5. *)
Theorem checkpoint_round_trip (st : Pretrain.train_state) (inner fresh : Pretrain.model)
    (l : spec_float) (o : state_dict) (w : world) :
  Pretrain.st_model st = Pretrain.DataParallel inner ->
  Pretrain.st_loss st = Some l ->
  exists w1 w2 m',
    Pretrain.save_checkpoint st 4 w = (Ok tt, w1)
    /\ Pretrain.resume (Pretrain.DataParallel fresh) o w1
       = (Ok (m', Pretrain.st_optimizer st, 5), w2)
    /\ Pretrain.parameters m' = Pretrain.parameters (Pretrain.st_model st)
    /\ Pretrain.get_module m' = Ok (Pretrain.set_parameters fresh (Pretrain.parameters inner))
    /\ fs w2 = fs w1 /\ trace w2 = trace w1.
Proof.
  intros Hm Hl.
  pose proof (EpochFacts.save_checkpoint_wrapped st inner l 4 w Hm Hl) as Hsave.
  match type of Hsave with _ = (_, ?x) => set (w1 := x) in * end.
  assert (Hf : fs w1 !! Pretrain.checkpoint_path
               = Some (Pickle (Pretrain.checkpoint_record 4 (Pretrain.parameters inner)
                                 (Pretrain.st_optimizer st) l)))
    by (subst w1; cbn [fs]; apply lookup_insert_eq).
  destruct (RunFacts.checkpoint_record_lookup 4 (Pretrain.parameters inner)
              (Pretrain.st_optimizer st) l) as (K1 & K2 & K3 & _).
  pose proof (ResumeFacts.resume_wrapped fresh o w1 _ _ _ 4 Hf K1 K2 K3) as Hres.
  eexists w1, _, _. split; [exact Hsave|]. split; [exact Hres|].
  rewrite Hm. cbn [Pretrain.parameters Pretrain.get_module fs trace].
  rewrite LoopFacts.parameters_set_parameters. auto.
Qed.

Lemma checkpoint_round_trip_witness :
  let st := Pretrain.TrainState
              (Pretrain.DataParallel (Pretrain.MidiDecoderOnlyModel Sample.weights))
              Sample.moments 10 (Some Sample.one) in
  Pretrain.st_model st
  = Pretrain.DataParallel (Pretrain.MidiDecoderOnlyModel Sample.weights)
  /\ Pretrain.st_loss st = Some Sample.one
  /\ exists w1 w2,
       Pretrain.save_checkpoint st 4 Sample.prepared = (Ok tt, w1)
       /\ Pretrain.resume (Pretrain.DataParallel (Pretrain.MidiDecoderOnlyModel ∅)) ∅ w1
          = (Ok (Pretrain.DataParallel (Pretrain.MidiDecoderOnlyModel Sample.weights),
                 Sample.moments, 5), w2).
Proof.
  intros st.
  assert (Hm : Pretrain.st_model st
               = Pretrain.DataParallel (Pretrain.MidiDecoderOnlyModel Sample.weights))
    by reflexivity.
  assert (Hl : Pretrain.st_loss st = Some Sample.one) by reflexivity.
  split; [exact Hm|]. split; [exact Hl|].
  destruct (checkpoint_round_trip st _ (Pretrain.MidiDecoderOnlyModel ∅) Sample.one ∅
              Sample.prepared Hm Hl)
    as (w1 & w2 & m' & Hsave & Hres & _ & Hmod & _).
  exists w1, w2. split; [exact Hsave|]. rewrite Hres.
  destruct m' as [p|inner']; [discriminate Hmod|].
  cbn in Hmod. injection Hmod as ->. reflexivity.
Defined.

(** X17. One pass over the loader writes one line to the log for every multiple
    of 500 that the global step counter passes, and nothing else: with the
    counter at [s] before and [B] batches, these are [(s + B) / 500 - s / 500]
    lines, each for a step that is a multiple of 500; nothing is printed, no
    file is written, and the model is called once per batch. *)
Theorem step_log_lines_per_pass (e : env) (st : Pretrain.train_state) (w : world) :
  0 <= Pretrain.st_step st ->
  Pretrain.st_step st + PyList.len (data_loader e) < 2 ^ 53 ->
  exists st' total w' lines,
    Pretrain.train_batches e st w = (Ok (st', total), w')
    /\ Pretrain.st_step st' = Pretrain.st_step st + PyList.len (data_loader e)
    /\ logfile w' = logfile w ++ lines
    /\ PyList.len lines
       = (Pretrain.st_step st + PyList.len (data_loader e)) / 500 - Pretrain.st_step st / 500
    /\ (forall msg, msg ∈ lines ->
          exists s avg, msg = StepLoss s avg /\ s `mod` 500 = 0
                        /\ Pretrain.st_step st < s <= Pretrain.st_step st + PyList.len (data_loader e))
    /\ stdout w' = stdout w /\ fs w' = fs w
    /\ trace w' = trace w ++ Pretrain.forward_events (data_loader e).
Proof.
  intros H0 Hs. rewrite (EpochFacts.train_batches_spec e st w H0 Hs).
  set (ls := Pretrain.losses e (data_loader e) _).
  assert (Hlen : PyList.len ls = PyList.len (data_loader e))
    by (unfold PyList.len; f_equal; apply EpochFacts.length_losses).
  eexists _, _, _, (Pretrain.step_logs (Pretrain.st_step st) [] ls).
  split; [reflexivity|]. cbn [fs trace stdout logfile]. split; [reflexivity|].
  split; [reflexivity|]. split; [|split; [|auto]].
  - rewrite RunFacts.step_logs_length by exact H0. rewrite Hlen. reflexivity.
  - intros msg Hin. unfold Pretrain.step_logs in Hin.
    apply list_elem_of_omap in Hin. destruct Hin as (j & Hj & Hline).
    apply elem_of_seq in Hj. unfold Pretrain.step_log_line in Hline.
    destruct (Z.eqb_spec ((Pretrain.st_step st + Z.of_nat j) `mod` Pretrain.log_interval) 0)
      as [Hz|Hz]; [|discriminate].
    injection Hline as <-. eexists _, _. split; [reflexivity|]. split; [exact Hz|].
    unfold PyList.len in *. clearbody ls. lia.
Qed.

Lemma step_log_lines_per_pass_witness :
  let e := Sample.machine 2 (replicate 3 Sample.padded) in
  let st := Pretrain.TrainState (Pretrain.build_model e) ∅ 998 None in
  0 <= Pretrain.st_step st
  /\ Pretrain.st_step st + PyList.len (data_loader e) < 2 ^ 53
  /\ exists st' total w' lines,
       Pretrain.train_batches e st Sample.prepared = (Ok (st', total), w')
       /\ logfile w' = logfile Sample.prepared ++ lines
       /\ PyList.len lines = 1.
Proof.
  intros e st.
  assert (H0 : 0 <= Pretrain.st_step st) by (vm_compute; discriminate).
  assert (Hs : Pretrain.st_step st + PyList.len (data_loader e) < 2 ^ 53)
    by (vm_compute; reflexivity).
  split; [exact H0|]. split; [exact Hs|].
  destruct (step_log_lines_per_pass e st Sample.prepared H0 Hs)
    as (st' & total & w' & lines & Hrun & _ & Hlog & Hlen & _).
  exists st', total, w', lines. split; [exact Hrun|]. split; [exact Hlog|].
  rewrite Hlen. reflexivity.
Defined.
